(** * The image server of [app.py]: transformation pipeline and cache

    A shallow embedding of the [image] view of [src/app.py] (the Flask
    handler of [/images/<image>]) together with the parts of Python, of
    [json], [hashlib], [os.path] and of Pillow that the handler calls.

    Conventions of the embedding:

    - a Python [str] is a Rocq [string]; its characters are the code
      points below 256, one [ascii] each (the Latin-1 range);
    - [bytes] are [list byte];
    - Python integers are [Z]; [int()] refuses a string of more than
      4300 digits, as CPython does by default;
    - Python floats are exact rationals [Q]: the handler only divides
      integers and truncates the quotient, which agrees with IEEE
      binary64 as long as the dividend stays below 2^53 in absolute
      value; the statements that name a quotient are made below that
      bound, and the halves of the sides of an image are exact;
    - exceptions are values of [exn]; pure code lives in [result], code
      that touches the file system in the state monad [M] over a [world]
      that holds the files and the trace of file-system accesses;
    - logging and timing ([app.logger.debug], [time.time]) have no effect
      on the response or on the files and are left out;
    - a size given to Pillow's [resize] is converted to a pair of C
      [int]s, which fails with [OverflowError] outside their range;
      whether Pillow then gets the memory for an image of that size is
      not for this file to say: it is the parameter [fits] of the
      server, and a size that does not fit fails with [MemoryError];
    - the range of binary64 is not modelled: a quotient too large for a
      float raises [OverflowError] at the division, where the model
      raises it one step later, at the conversion of the size; an angle
      too large for a float is outside the model of [rotate]. *)

From Stdlib Require Import ZArith QArith Qround Strings.String Strings.Ascii List Lia Strings.Byte.
From Stdlib Require Import Permutation Sorted OrderedTypeEx.
From stdpp Require Import gmap strings sorting.

Close Scope Q_scope.
Open Scope string_scope.
Open Scope Z_scope.

(** ** Exceptions and results *)

(** The [ValueError]s the handler can meet, by their message. *)
Inductive value_error : Type :=
| invalid_literal (s : string)   (* int(): invalid literal for int() with base 10 *)
| too_many_digits (s : string)   (* int(): Exceeds the limit (4300 digits) for integer string conversion *)
| size_not_positive.             (* resize: height and width must be > 0 *)

Inductive exn : Type :=
| AssertionError
| OSError (arg : string)                  (* raise OSError(path) *)
| FileNotFoundError (path : string)       (* opening a file that is not there *)
| UnidentifiedImageError (path : string)  (* Image.open: not an image *)
| CannotWriteMode (path : string)         (* Image.save: OSError, cannot write mode as JPEG *)
| KeyError (key : string)
| ValueError (why : value_error)
| ZeroDivisionError
| OverflowError                           (* resize: Python int too large to convert to C int *)
| MemoryError.                            (* resize: no memory for the new image *)

Inductive result (A : Type) : Type :=
| Ok (a : A)
| Raise (e : exn).
Arguments Ok {A} a.
Arguments Raise {A} e.

#[global] Instance result_ret : MRet result := fun A a => Ok a.
#[global] Instance result_bind : MBind result := fun A B f r =>
  match r with
  | Ok a => f a
  | Raise e => Raise e
  end.

(** ** Python built-ins *)

Module Py.

Definition ord (c : ascii) : Z := Z.of_N (N_of_ascii c).

(** [sub in s] for strings. *)
Fixpoint contains (sub s : string) : bool :=
  String.prefix sub s ||
  match s with
  | EmptyString => false
  | String _ s' => contains sub s'
  end.

(** Truth value of [d.get(k)]: [None] and the empty string are false. *)
Definition truthy (v : option string) : bool :=
  match v with
  | Some (String _ _) => true
  | _ => false
  end.

(** White space as [int()] strips it: the ASCII white space (TAB to CR,
    and the space) and, beyond ASCII, NEL and NBSP. The separators U+001C
    to U+001F are not stripped. *)
Definition isspace (c : ascii) : bool :=
  let n := ord c in
  ((9 <=? n) && (n <=? 13)) || (n =? 32) || (n =? 133) || (n =? 160).

Definition isdigit (c : ascii) : bool :=
  let n := ord c in (48 <=? n) && (n <=? 57).

Fixpoint lstrip (s : string) : string :=
  match s with
  | String c s' => if isspace c then lstrip s' else s
  | EmptyString => EmptyString
  end.

(** Strips trailing white space: [String c s'] survives unless it is
    white space followed by white space only. *)
Fixpoint rstrip (s : string) : string :=
  match s with
  | EmptyString => EmptyString
  | String c s' =>
      match rstrip s' with
      | EmptyString => if isspace c then EmptyString else String c EmptyString
      | r => String c r
      end
  end.

(** Digits of a decimal literal, single underscores allowed between
    digits. [acc] is the value read so far, [prev] tells whether the
    previous character was a digit. *)
Fixpoint digits (s : string) (acc : Z) (prev : bool) : option Z :=
  match s with
  | EmptyString => if prev then Some acc else None
  | String c s' =>
      if isdigit c then digits s' (10 * acc + (ord c - 48)) true
      else if (ord c =? 95) && prev then
        match s' with
        | String d _ => if isdigit d then digits s' acc false else None
        | EmptyString => None
        end
      else None
  end.

(** The value of a decimal literal: white space around it, an optional
    sign, digits. *)
Definition literal (s : string) : option Z :=
  match lstrip (rstrip s) with
  | String "+" s' => digits s' 0 false
  | String "-" s' => option_map Z.opp (digits s' 0 false)
  | s' => digits s' 0 false
  end.

(** The number of digits of a string: what the limit on the conversion
    of strings to integers counts. The sign, the white space and the
    underscores do not count; leading zeros do. *)
Fixpoint digit_count (s : string) : Z :=
  match s with
  | EmptyString => 0
  | String c s' => (if isdigit c then 1 else 0) + digit_count s'
  end.

(** [sys.get_int_max_str_digits()], by default. *)
Definition max_str_digits : Z := 4300.

(** [int(s)] for a [str]: a string that is not a literal is refused, and
    so is a literal of more digits than the limit. *)
Definition int (s : string) : result Z :=
  match literal s with
  | Some n =>
      if max_str_digits <? digit_count s then Raise (ValueError (too_many_digits s))
      else Ok n
  | None => Raise (ValueError (invalid_literal s))
  end.

(** What [int(s)] returns, when it returns. *)
Definition int_literal (s : string) : option Z :=
  match int s with
  | Ok n => Some n
  | Raise _ => None
  end.

(** [a / b] for integers: true division. *)
Definition truediv (a b : Z) : result Q :=
  if b =? 0 then Raise ZeroDivisionError
  else Ok (Qdiv (inject_Z a) (inject_Z b)).

(** [int(x)] for a float: truncation towards zero. *)
Definition int_of_float (x : Q) : Z := Z.quot (Qnum x) (Z.pos (Qden x)).

(** [round(x)] for a float: nearest integer, ties to the even one. *)
Definition round (x : Q) : Z :=
  let f := Qfloor x in
  let twice := Qfloor (Qmult (inject_Z 2) x) in   (* floor(2x) is 2f or 2f+1 *)
  if twice =? 2 * f then
    f
  else if Qeq_bool (Qmult (inject_Z 2) x) (inject_Z twice) && Z.even f then
    f                                              (* x = f + 1/2, f even *)
  else f + 1.

(** [bytes.hex()] *)
Definition hex_digit (n : Z) : ascii :=
  if n <? 10 then ascii_of_N (Z.to_N (48 + n)) else ascii_of_N (Z.to_N (87 + n)).

Definition byte_code (b : byte) : Z := Z.of_N (Byte.to_N b).

Fixpoint hex (bs : list byte) : string :=
  match bs with
  | [] => EmptyString
  | b :: bs' =>
      String (hex_digit (byte_code b / 16))
        (String (hex_digit (byte_code b mod 16)) (hex bs'))
  end.

Definition byte_of_Z (n : Z) : byte :=
  match Byte.of_N (Z.to_N (n mod 256)) with
  | Some b => b
  | None => x00
  end.

(** [s.encode('utf-8')] for code points below 256. *)
Fixpoint encode_utf8 (s : string) : list byte :=
  match s with
  | EmptyString => []
  | String c s' =>
      let n := ord c in
      if n <? 128 then byte_of_Z n :: encode_utf8 s'
      else byte_of_Z (Z.lor 192 (Z.shiftr n 6))
           :: byte_of_Z (Z.lor 128 (Z.land n 63))
           :: encode_utf8 s'
  end.

(** [sep.join([a, b])] *)
Definition join2 (sep a b : string) : string := a +:+ sep +:+ b.

End Py.

(** ** werkzeug: the query arguments

    [request.args] is an [ImmutableMultiDict]: the pairs of the query
    string in the order they were given. A key may occur several times;
    [get], indexing and [items] see its first value only. *)

Module MultiDict.

Definition t : Type := list (string * string).

Fixpoint get (d : t) (k : string) : option string :=
  match d with
  | [] => None
  | (k', v) :: d' => if String.eqb k' k then Some v else get d' k
  end.

(** [d[k]] *)
Definition getitem (d : t) (k : string) : result string :=
  match get d k with
  | Some v => Ok v
  | None => Raise (KeyError k)
  end.

(** [not d] *)
Definition is_empty (d : t) : bool :=
  match d with
  | [] => true
  | _ => false
  end.

(** [d.items()]: every key once, with its first value, in the order of
    the first occurrences. *)
Fixpoint items (d : t) : list (string * string) :=
  match d with
  | [] => []
  | (k, v) :: d' =>
      (k, v) :: filter (fun kv => negb (String.eqb (fst kv) k)) (items d')
  end.

End MultiDict.

(** ** json.dumps(obj, sort_keys=True) for a mapping from str to str *)

Module json.

Definition quote : ascii := "034"%char.
Definition backslash : ascii := "092"%char.

Definition hex4 (n : Z) : string :=
  String (Py.hex_digit (n / 4096 mod 16))
    (String (Py.hex_digit (n / 256 mod 16))
       (String (Py.hex_digit (n / 16 mod 16))
          (String (Py.hex_digit (n mod 16)) EmptyString))).

(** One character of a string, as [ensure_ascii=True] writes it. *)
Definition escape (c : ascii) : string :=
  let n := Py.ord c in
  if n =? 34 then String backslash (String quote EmptyString)
  else if n =? 92 then String backslash (String backslash EmptyString)
  else if n =? 10 then String backslash "n"
  else if n =? 13 then String backslash "r"
  else if n =? 9 then String backslash "t"
  else if n =? 12 then String backslash "f"
  else if n =? 8 then String backslash "b"
  else if (32 <=? n) && (n <=? 126) then String c EmptyString
  else String backslash (String "u" (hex4 n)).

Fixpoint escape_all (s : string) : string :=
  match s with
  | EmptyString => EmptyString
  | String c s' => escape c +:+ escape_all s'
  end.

Definition encode_str (s : string) : string :=
  String quote (escape_all s) +:+ String quote EmptyString.

(** [sort_keys=True]: the items sorted by key, in code point order. *)
Fixpoint insert_item (kv : string * string) (l : list (string * string))
  : list (string * string) :=
  match l with
  | [] => [kv]
  | kv' :: l' =>
      if String.leb (fst kv) (fst kv') then kv :: l
      else kv' :: insert_item kv l'
  end.

Fixpoint sort_items (l : list (string * string)) : list (string * string) :=
  match l with
  | [] => []
  | kv :: l' => insert_item kv (sort_items l')
  end.

Definition encode_item (kv : string * string) : string :=
  encode_str (fst kv) +:+ ": " +:+ encode_str (snd kv).

Fixpoint join_items (l : list (string * string)) : string :=
  match l with
  | [] => EmptyString
  | [kv] => encode_item kv
  | kv :: l' => encode_item kv +:+ ", " +:+ join_items l'
  end.

Definition encode_dict (l : list (string * string)) : string :=
  "{" +:+ join_items l +:+ "}".

Definition dumps_sort_keys (d : MultiDict.t) : string :=
  encode_dict (sort_items (MultiDict.items d)).

End json.

(** ** hashlib.md5 (RFC 1321) *)

Module hashlib.

Definition shifts : list Z :=
  [7; 12; 17; 22; 7; 12; 17; 22; 7; 12; 17; 22; 7; 12; 17; 22;
   5; 9; 14; 20; 5; 9; 14; 20; 5; 9; 14; 20; 5; 9; 14; 20;
   4; 11; 16; 23; 4; 11; 16; 23; 4; 11; 16; 23; 4; 11; 16; 23;
   6; 10; 15; 21; 6; 10; 15; 21; 6; 10; 15; 21; 6; 10; 15; 21].

(** [floor(2^32 * abs(sin(i + 1)))] for i = 0 .. 63 *)
Definition sines : list Z :=
  [0xd76aa478; 0xe8c7b756; 0x242070db; 0xc1bdceee;
   0xf57c0faf; 0x4787c62a; 0xa8304613; 0xfd469501;
   0x698098d8; 0x8b44f7af; 0xffff5bb1; 0x895cd7be;
   0x6b901122; 0xfd987193; 0xa679438e; 0x49b40821;
   0xf61e2562; 0xc040b340; 0x265e5a51; 0xe9b6c7aa;
   0xd62f105d; 0x02441453; 0xd8a1e681; 0xe7d3fbc8;
   0x21e1cde6; 0xc33707d6; 0xf4d50d87; 0x455a14ed;
   0xa9e3e905; 0xfcefa3f8; 0x676f02d9; 0x8d2a4c8a;
   0xfffa3942; 0x8771f681; 0x6d9d6122; 0xfde5380c;
   0xa4beea44; 0x4bdecfa9; 0xf6bb4b60; 0xbebfbc70;
   0x289b7ec6; 0xeaa127fa; 0xd4ef3085; 0x04881d05;
   0xd9d4d039; 0xe6db99e5; 0x1fa27cf8; 0xc4ac5665;
   0xf4292244; 0x432aff97; 0xab9423a7; 0xfc93a039;
   0x655b59c3; 0x8f0ccc92; 0xffeff47d; 0x85845dd1;
   0x6fa87e4f; 0xfe2ce6e0; 0xa3014314; 0x4e0811a1;
   0xf7537e82; 0xbd3af235; 0x2ad7d2bb; 0xeb86d391].

Definition wrap32 (x : Z) : Z := x mod 2 ^ 32.
Definition not32 (x : Z) : Z := Z.lxor x 0xffffffff.
Definition rotl32 (x c : Z) : Z :=
  wrap32 (Z.lor (Z.shiftl x c) (Z.shiftr x (32 - c))).

(** Little-endian bytes of the low [8 * n] bits of [x]. *)
Fixpoint le_bytes (n : nat) (x : Z) : list byte :=
  match n with
  | O => []
  | S n' => Py.byte_of_Z x :: le_bytes n' (Z.shiftr x 8)
  end.

Fixpoint le_word (bs : list byte) : Z :=
  match bs with
  | [] => 0
  | b :: bs' => Py.byte_code b + 256 * le_word bs'
  end.

(** The message, a 1 bit, zeros up to 56 modulo 64 bytes, and the length
    in bits on 64 bits. *)
Definition pad (msg : list byte) : list byte :=
  let len := Z.of_nat (length msg) in
  msg ++ x80 :: repeat x00 (Z.to_nat ((55 - len) mod 64))
      ++ le_bytes 8 (8 * len).

(** The first [n] groups of [k] elements of [l]. *)
Fixpoint chunks {A} (k n : nat) (l : list A) : list (list A) :=
  match n with
  | O => []
  | S n' => firstn k l :: chunks k n' (skipn k l)
  end.

Definition block_words (block : list byte) : list Z :=
  map le_word (chunks 4 16 block).

Definition state : Type := Z * Z * Z * Z.

Definition step (M : list Z) (st : state) (i : nat) : state :=
  let '(A, B, C, D) := st in
  let iz := Z.of_nat i in
  let '(F, g) :=
    if iz <? 16 then (Z.lor (Z.land B C) (Z.land (not32 B) D), iz)
    else if iz <? 32 then
      (Z.lor (Z.land D B) (Z.land (not32 D) C), (5 * iz + 1) mod 16)
    else if iz <? 48 then (Z.lxor B (Z.lxor C D), (3 * iz + 5) mod 16)
    else (Z.lxor C (Z.lor B (not32 D)), (7 * iz) mod 16) in
  let F' := wrap32 (F + A + nth i sines 0 + nth (Z.to_nat g) M 0) in
  (D, wrap32 (B + rotl32 F' (nth i shifts 0)), B, C).

Definition compress (st : state) (block : list byte) : state :=
  let '(a0, b0, c0, d0) := st in
  let '(A, B, C, D) := fold_left (step (block_words block)) (seq 0 64) st in
  (wrap32 (a0 + A), wrap32 (b0 + B), wrap32 (c0 + C), wrap32 (d0 + D)).

Definition init : state := (0x67452301, 0xefcdab89, 0x98badcfe, 0x10325476).

(** [hashlib.md5(msg).digest()] *)
Definition md5 (msg : list byte) : list byte :=
  let padded := pad msg in
  let '(a, b, c, d) :=
    fold_left compress (chunks 64 (length padded / 64) padded) init in
  le_bytes 4 a ++ le_bytes 4 b ++ le_bytes 4 c ++ le_bytes 4 d.

End hashlib.

(** ** os.path (posixpath) *)

Module os_path.

Definition startswith_sep (s : string) : bool :=
  match s with
  | String "/" _ => true
  | _ => false
  end.

Fixpoint endswith_sep (s : string) : bool :=
  match s with
  | EmptyString => false
  | String c EmptyString => Ascii.eqb c "/"
  | String _ s' => endswith_sep s'
  end.

(** [os.path.join(a, b)] *)
Definition join (a b : string) : string :=
  if startswith_sep b then b
  else if String.eqb a "" || endswith_sep a then a +:+ b
  else a +:+ "/" +:+ b.

End os_path.

(** ** Pillow

    An image is the record of how it was obtained: the decoded file and
    the operations applied to it since. [size] follows the documented
    size of each operation; the pixels are Pillow's business. *)

Module PIL.

Inductive transpose_method : Type := FLIP_LEFT_RIGHT | FLIP_TOP_BOTTOM.

Inductive Image : Type :=
| decoded (data : list byte) (width height : Z)
| resized (im : Image) (width height : Z)
| cropped (im : Image) (left upper right lower : Z)
| rotated (im : Image) (angle : Z)
| transposed (im : Image) (method : transpose_method).

(** [im.size]. A rotation made with the default [expand=0] keeps the
    size of its input. *)
Fixpoint size (im : Image) : Z * Z :=
  match im with
  | decoded _ w h => (w, h)
  | resized _ w h => (w, h)
  | cropped _ x0 y0 x1 y1 => (Z.max 0 (x1 - x0), Z.max 0 (y1 - y0))
  | rotated im' _ => size im'
  | transposed im' _ => size im'
  end.

(** The range of a C [int]. *)
Definition INT_MAX : Z := 2147483647.
Definition INT_MIN : Z := -2147483648.

Definition c_int (n : Z) : bool := (INT_MIN <=? n) && (n <=? INT_MAX).

(** [im.resize((w, h))]: a copy when the size is the image's own.
    Otherwise the size goes to the C core, which takes it as two C
    [int]s ([OverflowError] when one is out of range), refuses a side
    below 1 with [ValueError], and builds the new image when it gets the
    memory for it: [fits] tells for which sizes it does. *)
Definition resize (fits : Z * Z -> bool) (im : Image) (sz : Z * Z)
  : result Image :=
  let '(w, h) := sz in
  if (fst (size im) =? w) && (snd (size im) =? h) then Ok im
  else if negb (c_int w && c_int h) then Raise OverflowError
  else if (w <? 1) || (h <? 1) then Raise (ValueError size_not_positive)
  else if fits (w, h) then Ok (resized im w h)
  else Raise MemoryError.

(** [im.crop((left, upper, right, lower))] *)
Definition crop (im : Image) (box : Z * Z * Z * Z) : Image :=
  let '(x0, y0, x1, y1) := box in
  cropped im x0 y0 x1 y1.

(** [im.rotate(angle)]: counter-clockwise around the centre, on a
    canvas of the same size; a copy when the angle is a full turn. *)
Definition rotate (im : Image) (angle : Z) : Image :=
  if angle mod 360 =? 0 then im else rotated im (angle mod 360).

(** [ImageOps.mirror] and [ImageOps.flip] *)
Definition mirror (im : Image) : Image := transposed im FLIP_LEFT_RIGHT.
Definition flip (im : Image) : Image := transposed im FLIP_TOP_BOTTOM.

End PIL.

(** ** The file system and its trace *)

Inductive event : Type :=
| ev_isfile (path : string)       (* os.path.isfile *)
| ev_image_open (path : string)   (* Image.open *)
| ev_image_save (path : string)   (* Image.save *)
| ev_send_file (path : string).   (* send_file *)

Record world : Type := World {
  files : gmap string (list byte);
  trace : list event
}.

Definition M (A : Type) : Type := world -> result A * world.

Definition ret {A} (a : A) : M A := fun w => (Ok a, w).
Definition bind {A B} (m : M A) (f : A -> M B) : M B := fun w =>
  match m w with
  | (Ok a, w') => f a w'
  | (Raise e, w') => (Raise e, w')
  end.

Notation "'let*' x := m 'in' k" := (bind m (fun x => k))
  (at level 10, x pattern, m at level 100, k at level 200).

Definition lift {A} (r : result A) : M A := fun w => (r, w).
Definition raise {A} (e : exn) : M A := lift (Raise e).
Definition log (ev : event) : M unit :=
  fun w => (Ok tt, World (files w) (trace w ++ [ev])).

Record Response : Type := Resp {
  body : list byte;
  mimetype : string
}.

(** The error kinds of the specification (section 7), and the reading of
    the handler's exceptions in these kinds; [Unclassified] is for the
    exceptions that the specification does not name. *)
Inductive error_kind : Type :=
| InvalidParameter | InvalidReference | NotFound | DecodeError
| InvalidGeometry | IOFailure | Unclassified.

Definition kind_of (e : exn) : error_kind :=
  match e with
  | AssertionError => InvalidReference
  | OSError _ => NotFound
  | FileNotFoundError _ => NotFound
  | UnidentifiedImageError _ => DecodeError
  | CannotWriteMode _ => IOFailure
  | KeyError _ => InvalidParameter
  | ValueError (invalid_literal _) => InvalidParameter
  | ValueError (too_many_digits _) => InvalidParameter
  | ValueError size_not_positive => InvalidGeometry
  | ZeroDivisionError => InvalidGeometry
  | OverflowError => Unclassified
  | MemoryError => Unclassified
  end.

(** ** The specification's wording, for comparison with the code *)

(** Section 4.3, resize with the height only:
    [new_width = round(new_height * original_width / original_height)]. *)
Definition spec_width_for_height (new_height : Z) (sz : Z * Z) : result Z :=
  q ← Py.truediv (new_height * fst sz) (snd sz);
  mret (Py.round q).



(** ** A toy image format, to run the server on examples

    A file is an image when it has at least four bytes: width and height,
    16 bits each, little-endian. The toy encoder writes the two JPEG
    marker bytes and the size of the image. *)

Definition toy_identify (data : list byte) : option (Z * Z) :=
  match data with
  | a :: b :: c :: d :: _ => Some (hashlib.le_word [a; b], hashlib.le_word [c; d])
  | _ => None
  end.

Definition toy_file (width height : Z) : list byte :=
  hashlib.le_bytes 2 width ++ hashlib.le_bytes 2 height.

Definition toy_jpeg (im : PIL.Image) : option (list byte) :=
  Some (xff :: xd8 :: toy_file (fst (PIL.size im)) (snd (PIL.size im))).

(** A machine with room for the images of at most 2^24 pixels. *)
Definition toy_fits (sz : Z * Z) : bool := fst sz * snd sz <=? 16777216.

Definition toy_world : world :=
  World {[ "/srv/images/a.png" := toy_file 300 100 ]} [].

(** ** Predicates on the characters of a string *)

Module Str.

Fixpoint all (p : ascii -> bool) (s : string) : bool :=
  match s with
  | EmptyString => true
  | String c s' => p c && all p s'
  end.

(** [0-9a-f] *)
Definition is_lower_hex (c : ascii) : bool :=
  let n := Py.ord c in
  ((48 <=? n) && (n <=? 57)) || ((97 <=? n) && (n <=? 102)).

(** [A-Za-z] *)
Definition is_letter (c : ascii) : bool :=
  let n := Py.ord c in
  ((65 <=? n) && (n <=? 90)) || ((97 <=? n) && (n <=? 122)).

End Str.


(** ** Reading back what the encoders wrote

    The inverses of [json.escape] and of the UTF-8 encoding of one
    character, used to show that the text that is hashed loses nothing of
    the parameters. *)

Module Decode.

Definition unhex (c : ascii) : Z :=
  let n := Py.ord c in if n <? 58 then n - 48 else n - 87.

Definition of_code (n : Z) : ascii := ascii_of_N (Z.to_N n).

(** The first character of an escaped text and the rest; nothing at a
    quote, which ends a string. *)
Definition unescape (s : string) : option (ascii * string) :=
  match s with
  | EmptyString => None
  | String c r =>
      if Py.ord c =? 34 then None
      else if Py.ord c =? 92 then
        match r with
        | String "u" (String _ (String _ (String x (String y r')))) =>
            Some (of_code (16 * unhex x + unhex y), r')
        | String d r' =>
            if Py.ord d =? 110 then Some (of_code 10, r')
            else if Py.ord d =? 114 then Some (of_code 13, r')
            else if Py.ord d =? 116 then Some (of_code 9, r')
            else if Py.ord d =? 102 then Some (of_code 12, r')
            else if Py.ord d =? 98 then Some (of_code 8, r')
            else Some (d, r')
        | EmptyString => None
        end
      else Some (c, r)
  end.

(** The first character of a UTF-8 text below U+0100 and the rest. *)
Definition utf8_head (bs : list byte) : option (ascii * list byte) :=
  match bs with
  | [] => None
  | b :: r =>
      if Py.byte_code b <? 128 then Some (of_code (Py.byte_code b), r)
      else
        match r with
        | b2 :: r' =>
            Some (of_code (64 * Z.land (Py.byte_code b) 3
                           + Z.land (Py.byte_code b2) 63), r')
        | [] => None
        end
  end.

End Decode.


(** ** More of Python's [str] *)

Module PyStr.

(** [c.isspace()] for a code point below 256. *)
Definition isspace (c : ascii) : bool :=
  let n := Py.ord c in
  ((9 <=? n) && (n <=? 13)) || ((28 <=? n) && (n <=? 32))
  || (n =? 133) || (n =? 160).

(** [c.lower()] for a code point below 256: the ASCII capitals and the
    Latin-1 capitals (U+00C0 to U+00DE but the multiplication sign). *)
Definition lower_char (c : ascii) : ascii :=
  let n := Py.ord c in
  if ((65 <=? n) && (n <=? 90))
     || ((192 <=? n) && (n <=? 222) && negb (n =? 215))
  then ascii_of_N (Z.to_N (n + 32))
  else c.

Fixpoint lower (s : string) : string :=
  match s with
  | EmptyString => EmptyString
  | String c s' => String (lower_char c) (lower s')
  end.

(** [s.rsplit('.', 1)]: the text before the last dot and the text after
    it, or the text alone when it has no dot. *)
Fixpoint rsplit_dot (s : string) : list string :=
  match s with
  | EmptyString => [EmptyString]
  | String c s' =>
      match rsplit_dot s' with
      | [head; tail] => [String c head; tail]
      | _ => if Ascii.eqb c "." then [EmptyString; s'] else [String c s']
      end
  end.

End PyStr.

(** ** werkzeug.utils.secure_filename, on POSIX *)

Module werkzeug.

(** [unicodedata.normalize("NFKD", c).encode("ascii", "ignore")] for the
    code points from U+0080 to U+00FF that leave something behind. *)
Definition nfkd_ascii_table : list (Z * string) :=
  [
   (160, " "); (168, " "); (170, "a"); (175, " "); (178, "2"); (179, "3");
   (180, " "); (184, " "); (185, "1"); (186, "o"); (188, "14"); (189, "12");
   (190, "34"); (192, "A"); (193, "A"); (194, "A"); (195, "A"); (196, "A");
   (197, "A"); (199, "C"); (200, "E"); (201, "E"); (202, "E"); (203, "E");
   (204, "I"); (205, "I"); (206, "I"); (207, "I"); (209, "N"); (210, "O");
   (211, "O"); (212, "O"); (213, "O"); (214, "O"); (217, "U"); (218, "U");
   (219, "U"); (220, "U"); (221, "Y"); (224, "a"); (225, "a"); (226, "a");
   (227, "a"); (228, "a"); (229, "a"); (231, "c"); (232, "e"); (233, "e");
   (234, "e"); (235, "e"); (236, "i"); (237, "i"); (238, "i"); (239, "i");
   (241, "n"); (242, "o"); (243, "o"); (244, "o"); (245, "o"); (246, "o");
   (249, "u"); (250, "u"); (251, "u"); (252, "u"); (253, "y"); (255, "y")
  ].

Fixpoint lookup_code (n : Z) (table : list (Z * string)) : option string :=
  match table with
  | [] => None
  | (m, s) :: table' => if n =? m then Some s else lookup_code n table'
  end.

Definition nfkd_ascii (c : ascii) : string :=
  let n := Py.ord c in
  if n <? 128 then String c EmptyString
  else
    match lookup_code n nfkd_ascii_table with
    | Some s => s
    | None => EmptyString
    end.

Fixpoint normalize_ascii (s : string) : string :=
  match s with
  | EmptyString => EmptyString
  | String c s' => nfkd_ascii c +:+ normalize_ascii s'
  end.

(** [filename.replace("/", " ")] *)
Fixpoint replace_sep (s : string) : string :=
  match s with
  | EmptyString => EmptyString
  | String c s' =>
      String (if Ascii.eqb c "/" then " "%char else c) (replace_sep s')
  end.

(** ["_".join(s.split())], read from left to right: where the reader is
    with respect to the words. *)
Inductive place : Type := at_start | in_word | after_word.

Fixpoint join_words (p : place) (s : string) : string :=
  match s with
  | EmptyString => EmptyString
  | String c s' =>
      if PyStr.isspace c then
        join_words (match p with at_start => at_start | _ => after_word end) s'
      else
        match p with
        | after_word => String "_" (String c (join_words in_word s'))
        | _ => String c (join_words in_word s')
        end
  end.

(** The characters that [[^A-Za-z0-9_.-]] does not match. *)
Definition keeps (c : ascii) : bool :=
  let n := Py.ord c in
  ((65 <=? n) && (n <=? 90)) || ((97 <=? n) && (n <=? 122))
  || ((48 <=? n) && (n <=? 57)) || (n =? 95) || (n =? 46) || (n =? 45).

Fixpoint strip_others (s : string) : string :=
  match s with
  | EmptyString => EmptyString
  | String c s' =>
      if keeps c then String c (strip_others s') else strip_others s'
  end.

(** [s.strip("._")] *)
Definition dot_or_underscore (c : ascii) : bool :=
  Ascii.eqb c "." || Ascii.eqb c "_".

Fixpoint lstrip (s : string) : string :=
  match s with
  | String c s' => if dot_or_underscore c then lstrip s' else s
  | EmptyString => EmptyString
  end.

Fixpoint rstrip (s : string) : string :=
  match s with
  | EmptyString => EmptyString
  | String c s' =>
      match rstrip s' with
      | EmptyString =>
          if dot_or_underscore c then EmptyString else String c EmptyString
      | r => String c r
      end
  end.

Definition secure_filename (filename : string) : string :=
  let filename := normalize_ascii filename in
  let filename := replace_sep filename in
  lstrip (rstrip (strip_others (join_words at_start filename))).

End werkzeug.


(** A toy template and a toy directory listing: the names joined by
    commas, and the paths of the files under a directory. *)
Definition toy_render (names : list string) : string :=
  String.concat ", " names.

Definition toy_walk (fs : gmap string (list byte)) (dir : string)
  : list string :=
  List.filter (String.prefix dir) (map fst (map_to_list fs)).


(** A world whose only source is not an image of the toy format. *)
Definition toy_world_text : world :=
  World {[ "/srv/images/notes.png" := [x68; x69] ]} [].


(** * The server *)

Section Server.

#[local] Set Default Proof Using "Type".

(** [os.path.dirname(__file__)] *)
Variable root : string.

(** What [Image.open] makes of the content of a file: its size, or
    nothing when Pillow does not identify an image. *)
Variable identify : list byte -> option (Z * Z).

(** What [save(..., "JPEG", quality=80, optimize=True, progressive=True)]
    writes, or nothing when the image's mode cannot be written as JPEG. *)
Variable jpeg : PIL.Image -> option (list byte).

(** The sizes for which Pillow gets the memory of a new image. *)
Variable fits : Z * Z -> bool.

Definition images_path : string := os_path.join root "images".
Definition cached_path : string := os_path.join root "cached".

(** [os.path.isfile(path)] *)
Definition isfile (path : string) : M bool :=
  let* _ := log (ev_isfile path) in
  fun w => (Ok (bool_decide (is_Some (files w !! path))), w).

(** [Image.open(path)]. Decoding is taken to happen at once, here; Pillow
    reads the pixels later, at the first operation that needs them, which
    is still before anything is saved. *)
Definition Image_open (path : string) : M PIL.Image :=
  let* _ := log (ev_image_open path) in
  fun w =>
    match files w !! path with
    | None => (Raise (FileNotFoundError path), w)
    | Some data =>
        match identify data with
        | Some (width, height) => (Ok (PIL.decoded data width height), w)
        | None => (Raise (UnidentifiedImageError path), w)
        end
    end.

(** [image.save(path, "JPEG", quality=80, optimize=True, progressive=True)];
    a save that fails leaves no file behind. *)
Definition Image_save (im : PIL.Image) (path : string) : M unit :=
  let* _ := log (ev_image_save path) in
  fun w =>
    match jpeg im with
    | Some out => (Ok tt, World (<[path := out]> (files w)) (trace w))
    | None => (Raise (CannotWriteMode path), w)
    end.

(** [send_file(path, mimetype=...)] *)
Definition send_file (path mime : string) : M Response :=
  let* _ := log (ev_send_file path) in
  fun w =>
    match files w !! path with
    | Some data => (Ok (Resp data mime), w)
    | None => (Raise (FileNotFoundError path), w)
    end.

(** Generating a hash. *)
Definition identity (image : string) (args : MultiDict.t) : string :=
  Py.hex (hashlib.md5 (Py.encode_utf8
    (Py.join2 "-" image (json.dumps_sort_keys args)))).

Definition target_path (image : string) (args : MultiDict.t) : string :=
  os_path.join cached_path (identity image args) +:+ ".jpg".

(** Altering image size. *)
Definition resize_stage (args : MultiDict.t) (image : PIL.Image)
  : result PIL.Image :=
  if Py.truthy (MultiDict.get args "h") && Py.truthy (MultiDict.get args "w") then
    h ← MultiDict.getitem args "h";
    new_height ← Py.int h;
    w ← MultiDict.getitem args "w";
    new_width ← Py.int w;
    PIL.resize fits image (new_width, new_height)
  else if Py.truthy (MultiDict.get args "h") then
    let original_width := fst (PIL.size image) in
    let original_height := snd (PIL.size image) in
    h ← MultiDict.getitem args "h";
    new_height ← Py.int h;
    q ← Py.truediv (new_height * original_width) original_height;
    let new_width := Py.int_of_float q in
    PIL.resize fits image (new_width, new_height)
  else if Py.truthy (MultiDict.get args "w") then
    let original_width := fst (PIL.size image) in
    let original_height := snd (PIL.size image) in
    w ← MultiDict.getitem args "w";
    new_width ← Py.int w;
    q ← Py.truediv (new_width * original_height) original_width;
    let new_height := Py.int_of_float q in
    PIL.resize fits image (new_width, new_height)
  else Ok image.

(** Croping image. *)
Definition crop_stage (args : MultiDict.t) (image : PIL.Image)
  : result PIL.Image :=
  if bool_decide (MultiDict.get args "format" = Some "square") then
    let width := fst (PIL.size image) in
    let height := snd (PIL.size image) in
    if width >? height then
      let top := 0 in
      let bottom := height in
      half ← Py.truediv height 2;
      center ← Py.truediv width 2;
      let left := Py.int_of_float (Qminus center half) in
      let right := Py.int_of_float (Qplus center half) in
      Ok (PIL.crop image (left, top, right, bottom))
    else if width <? height then
      let left := 0 in
      let right := width in
      half ← Py.truediv width 2;
      center ← Py.truediv height 2;
      let top := Py.int_of_float (Qminus center half) in
      let bottom := Py.int_of_float (Qplus center half) in
      Ok (PIL.crop image (left, top, right, bottom))
    else Ok image
  else Ok image.

(** Rotating image. *)
Definition rotate_stage (args : MultiDict.t) (image : PIL.Image)
  : result PIL.Image :=
  if Py.truthy (MultiDict.get args "rot") then
    r ← MultiDict.getitem args "rot";
    angle ← Py.int r;
    Ok (PIL.rotate image angle)
  else Ok image.

(** Flipping image. *)
Definition flip_stage (args : MultiDict.t) (image : PIL.Image)
  : result PIL.Image :=
  if bool_decide (MultiDict.get args "flip" = Some "h") then
    Ok (PIL.mirror image)
  else if bool_decide (MultiDict.get args "flip" = Some "v") then
    Ok (PIL.flip image)
  else if bool_decide (MultiDict.get args "flip" = Some "hv") then
    Ok (PIL.mirror (PIL.flip image))
  else Ok image.

(** The four blocks between [Image.open] and [image.save], in the order
    of the source. *)
Definition transform (args : MultiDict.t) (image : PIL.Image)
  : result PIL.Image :=
  image ← resize_stage args image;
  image ← crop_stage args image;
  image ← rotate_stage args image;
  flip_stage args image.

(** Processing the file: what the handler does when the target is not
    in the cache. *)
Definition process (path target : string) (args : MultiDict.t) : M unit :=
  let* image := Image_open path in
  let* image := lift (transform args image) in
  Image_save image target.

(** The view [image] of [/images/<image>]. *)
Definition image (image : string) (args : MultiDict.t) : M Response :=
  if Py.contains ".." image then raise AssertionError
  else
    let path := os_path.join images_path image in
    let* present := isfile path in
    if negb present then raise (OSError path)
    else if MultiDict.is_empty args then send_file path "image/jpg"
    else
      let target := target_path image args in
      let* cached := isfile target in
      let* _ := (if negb cached then process path target args else ret tt) in
      send_file target "image/jpg".

(** A sequence of requests, one after the other; the responses are
    dropped, the world is kept. *)
Definition serve_all (requests : list (string * MultiDict.t)) (w : world)
  : world :=
  fold_left (fun w r => snd (image (fst r) (snd r) w)) requests w.

Definition is_pipeline_event (ev : event) : bool :=
  match ev with
  | ev_image_open _ | ev_image_save _ => true
  | _ => false
  end.

Definition is_save_event (ev : event) : bool :=
  match ev with
  | ev_image_save _ => true
  | _ => false
  end.

(** The order of [sort_keys]: by key, strictly. *)
Definition key_lt (a b : string * string) : Prop :=
  String.ltb (fst a) (fst b) = true.

Definition mime : string := "image/jpg".

(** The world after the accesses [evs]. *)
Definition after (w : world) (evs : list event) : world :=
  World (files w) (trace w ++ evs).

(** The handler, branch by branch: what it returns and the world it
    leaves, by the state of the files. *)
Definition image_cases (im : string) (args : MultiDict.t) (w : world)
  : result Response * world :=
  let path := os_path.join images_path im in
  let target := target_path im args in
  if Py.contains ".." im then (Raise AssertionError, w)
  else
    match files w !! path with
    | None => (Raise (OSError path), after w [ev_isfile path])
    | Some data =>
        if MultiDict.is_empty args then
          (Ok (Resp data mime), after w [ev_isfile path; ev_send_file path])
        else
          match files w !! target with
          | Some stored =>
              (Ok (Resp stored mime),
               after w [ev_isfile path; ev_isfile target; ev_send_file target])
          | None =>
              let opened :=
                after w [ev_isfile path; ev_isfile target; ev_image_open path] in
              match identify data with
              | None => (Raise (UnidentifiedImageError path), opened)
              | Some (width, height) =>
                  match transform args (PIL.decoded data width height) with
                  | Raise e => (Raise e, opened)
                  | Ok out =>
                      match jpeg out with
                      | None =>
                          (Raise (CannotWriteMode target),
                           after opened [ev_image_save target])
                      | Some bytes =>
                          (Ok (Resp bytes mime),
                           World (<[target := bytes]> (files w))
                             (trace w ++
                                [ev_isfile path; ev_isfile target;
                                 ev_image_open path; ev_image_save target;
                                 ev_send_file target]))
                      end
                  end
              end
          end
    end.

(** The size that the resize block asks of Pillow for an image of size
    [size], when the arguments name one and [int()] takes them: the three
    branches of the block. *)
Inductive requested_size (args : MultiDict.t) (size : Z * Z) : Z * Z -> Prop :=
| both_sides h w new_height new_width :
    MultiDict.get args "h" = Some h ->
    MultiDict.get args "w" = Some w ->
    Py.int_literal h = Some new_height ->
    Py.int_literal w = Some new_width ->
    requested_size args size (new_width, new_height)
| height_only h new_height :
    MultiDict.get args "h" = Some h ->
    Py.truthy (MultiDict.get args "w") = false ->
    Py.int_literal h = Some new_height ->
    size.2 <> 0 ->
    requested_size args size ((new_height * size.1) ÷ size.2, new_height)
| width_only w new_width :
    MultiDict.get args "w" = Some w ->
    Py.truthy (MultiDict.get args "h") = false ->
    Py.int_literal w = Some new_width ->
    size.1 <> 0 ->
    requested_size args size (new_width, (new_width * size.2) ÷ size.1).

(** A value that is given, not empty, and that [int()] refuses: it is
    not an integer literal, or it has more digits than the limit. *)
Definition unparsable (v : option string) : bool :=
  match v with
  | Some s =>
      Py.truthy v && match Py.int_literal s with Some _ => false | None => true end
  | None => false
  end.

(** Both sides of a size are positive. *)
Definition positive_size (sz : Z * Z) : Prop := 0 < sz.1 /\ 0 < sz.2.

(** ** The upload and the list of images *)

Definition ALLOWED_EXTENSIONS : gset string := {[ "png"; "jpg"; "jpeg"; "gif" ]}.

(** Evaluates if a file is accepted. *)
Definition allowed_file (filename : string) : bool :=
  Py.contains "." filename &&
  match PyStr.rsplit_dot filename with
  | [_; extension] => bool_decide (PyStr.lower extension ∈ ALLOWED_EXTENSIONS)
  | _ => false
  end.

(** What the template [images.html] renders for a list of names, and the
    file names that [os.walk] finds under a directory, in the order of the
    system. *)
Variable render : list string -> string.
Variable walk : gmap string (list byte) -> string -> list string.

Inductive http_method : Type := GET | POST.

(** [file.save(path)]: the content replaces what was at the path; a path
    that ends in a separator names a directory and cannot be written.
    The write leaves no event: the trace is that of the image view. *)
Definition FileStorage_save (content : list byte) (path : string) : M unit :=
  fun w =>
    if os_path.endswith_sep path then (Raise (OSError path), w)
    else (Ok tt, World (<[path := content]> (files w)) (trace w)).

(** The view [images] of [/images]: [file] is [request.files['file']]
    when the form has one, its name and its content. *)
Definition images (method : http_method) (file : option (string * list byte))
  : M string :=
  let* _ :=
    match method, file with
    | POST, Some (filename, content) =>
        if negb (String.eqb filename "") && allowed_file filename then
          let key := werkzeug.secure_filename filename in
          let path := os_path.join images_path key in
          FileStorage_save content path
        else ret tt
    | _, _ => ret tt
    end in
  fun w => (Ok (render (walk (files w) images_path)), w).

(** Hello world example. *)
Definition hello : M string := ret "Hello, World!".

(** A request to one of the three routes, and what a sequence of them
    leaves. *)
Inductive request : Type :=
| to_hello
| to_images (method : http_method) (file : option (string * list byte))
| to_image (im : string) (args : MultiDict.t).

Definition handle (r : request) (w : world) : world :=
  match r with
  | to_hello => (hello w).2
  | to_images method file => (images method file w).2
  | to_image im args => (image im args w).2
  end.

Definition handle_all (requests : list request) (w : world) : world :=
  fold_left (fun w r => handle r w) requests w.

(** * Properties *)

(** ** The models of the libraries on known values *)

Example int_literal_examples :
  Py.int_literal " 12 " = Some 12
  /\ Py.int_literal "+5" = Some 5
  /\ Py.int_literal "-0" = Some 0
  /\ Py.int_literal "007" = Some 7
  /\ Py.int_literal "1_0" = Some 10
  /\ Py.int_literal "1__0" = None
  /\ Py.int_literal "1_" = None
  /\ Py.int_literal "_1" = None
  /\ Py.int_literal "+-5" = None
  /\ Py.int_literal "+ 1" = None
  /\ Py.int_literal "1 2" = None
  /\ Py.int_literal "0x10" = None
  /\ Py.int_literal "abc" = None
  /\ Py.int_literal "" = None
  /\ Py.int_literal (String "160" "5") = Some 5
  /\ Py.int_literal (String "133" "5") = Some 5
  /\ Py.int_literal (String "028" "5") = None.
Proof. repeat split; reflexivity. Qed.

Example int_digit_limit :
  let nines := String.concat "" (repeat "9" 4300) in
  Py.digit_count nines = 4300
  /\ Py.int_literal nines <> None
  /\ Py.int_literal (String "-" nines +:+ " ") <> None
  /\ Py.int (String "1" nines)
     = Raise (ValueError (too_many_digits (String "1" nines)))
  /\ Py.int (String "x" nines)
     = Raise (ValueError (invalid_literal (String "x" nines))).
Proof.
  repeat split; try (vm_compute; reflexivity); vm_compute; discriminate.
Qed.

Example resize_examples :
  let source := PIL.decoded [] 300 100 in
  PIL.resize toy_fits source (150, 50) = Ok (PIL.resized source 150 50)
  /\ PIL.resize toy_fits source (300, 100) = Ok source
  /\ PIL.resize toy_fits source (0, 50) = Raise (ValueError size_not_positive)
  /\ PIL.resize toy_fits source (150, -1) = Raise (ValueError size_not_positive)
  /\ PIL.resize toy_fits source (2147483648, 1) = Raise OverflowError
  /\ PIL.resize toy_fits source (0, 2147483648) = Raise OverflowError
  /\ PIL.resize toy_fits source (-2147483649, 1) = Raise OverflowError
  /\ PIL.resize toy_fits source (-2147483648, 1)
     = Raise (ValueError size_not_positive)
  /\ PIL.resize toy_fits source (65536, 65536) = Raise MemoryError.
Proof. repeat split. Qed.

Example float_examples :
  Py.int_of_float (Qmake 3 2) = 1
  /\ Py.int_of_float (Qmake (-3) 2) = -1
  /\ Py.round (Qmake 51 2) = 26
  /\ Py.round (Qmake 49 2) = 24
  /\ Py.round (Qmake (-3) 2) = -2
  /\ Py.round (Qmake 200 3) = 67
  /\ Py.round (Qmake 100 1) = 100.
Proof. repeat split; reflexivity. Qed.

Example join_examples :
  os_path.join "/srv" "images" = "/srv/images"
  /\ os_path.join "/srv/" "images" = "/srv/images"
  /\ os_path.join "" "images" = "images"
  /\ os_path.join "/srv/images" "/etc/passwd" = "/etc/passwd".
Proof. repeat split; reflexivity. Qed.

Example md5_empty :
  Py.hex (hashlib.md5 []) = "d41d8cd98f00b204e9800998ecf8427e".
Proof. vm_compute. reflexivity. Qed.

Example md5_abc :
  Py.hex (hashlib.md5 (Py.encode_utf8 "abc")) = "900150983cd24fb0d6963f7d28e17f72".
Proof. vm_compute. reflexivity. Qed.

Example md5_two_blocks :
  Py.hex (hashlib.md5 (repeat x61 100)) = "36a92cc94a9e0fa21f625f8bfb007adf".
Proof. vm_compute. reflexivity. Qed.

Example dumps_example :
  json.dumps_sort_keys [("w", "100"); ("h", "50")]
  = "{" +:+ json.encode_str "h" +:+ ": " +:+ json.encode_str "50" +:+ ", "
        +:+ json.encode_str "w" +:+ ": " +:+ json.encode_str "100" +:+ "}".
Proof. reflexivity. Qed.

Example identity_example :
  identity "cat.jpg" [("w", "100"); ("h", "50")]
  = "571fe544831918365c9d38eaa91cfd60".
Proof. vm_compute. reflexivity. Qed.

(** Escapes and Latin-1: the identifier [été.png] and the [h] value made
    of 5, a quote, 0, a backslash, DEL, U+0001, a line feed, é and a
    slash. *)
Example identity_escapes_example :
  identity (String "233" ("t" +:+ String "233" ".png"))
    [("w", "100");
     ("h", "5" +:+ String "034" ("0" +:+ String "092" (String "127"
             (String "001" (String "010" (String "233" "/"))))))]
  = "c92fe86636ec617c83983a4baf98a950".
Proof. vm_compute. reflexivity. Qed.

(** ** Order of strings *)

Lemma ltb_trans (a b c : string) :
  String.ltb a b = true -> String.ltb b c = true -> String.ltb a c = true.
Proof.
  unfold String.ltb.
  destruct (String.compare a b) eqn:Hab; try discriminate.
  destruct (String.compare b c) eqn:Hbc; try discriminate.
  intros _ _.
  apply String_as_OT.cmp_lt in Hab, Hbc.
  assert (Hac : String_as_OT.cmp a c = Lt)
    by (apply String_as_OT.cmp_lt; eapply String_as_OT.lt_trans; eauto).
  unfold String_as_OT.cmp in Hac. now rewrite Hac.
Qed.

Lemma ltb_irrefl (a : string) : String.ltb a a = false.
Proof.
  unfold String.ltb.
  assert (H : String_as_OT.cmp a a = Eq) by now apply String_as_OT.cmp_eq.
  unfold String_as_OT.cmp in H. now rewrite H.
Qed.

Lemma leb_ne_ltb (a b : string) :
  String.leb a b = true -> a <> b -> String.ltb a b = true.
Proof.
  unfold String.leb, String.ltb.
  destruct (String.compare a b) eqn:Hab; try easy.
  apply String.compare_eq_iff in Hab. congruence.
Qed.

Lemma leb_false_ltb (a b : string) :
  String.leb a b = false -> String.ltb b a = true.
Proof.
  unfold String.leb, String.ltb. rewrite (String.compare_antisym a b).
  destruct (String.compare b a); simpl; congruence.
Qed.

#[local] Instance key_lt_transitive : Transitive key_lt.
Proof. intros a b c. unfold key_lt. apply ltb_trans. Qed.

#[local] Instance key_lt_antisym : AntiSymm (=) key_lt.
Proof.
  intros a b Hab Hba. unfold key_lt in *.
  pose proof (ltb_trans _ _ _ Hab Hba) as H.
  rewrite ltb_irrefl in H. discriminate.
Qed.

(** ** Sorting the items *)

Lemma insert_item_perm kv l : json.insert_item kv l ≡ₚ kv :: l.
Proof.
  induction l as [|kv' l IH]; simpl; [done|].
  destruct (String.leb kv.1 kv'.1); [done|].
  rewrite IH. apply Permutation_swap.
Qed.

Lemma sort_items_perm l : json.sort_items l ≡ₚ l.
Proof.
  induction l as [|kv l IH]; simpl; [done|].
  by rewrite insert_item_perm, IH.
Qed.

Lemma insert_item_sorted kv l :
  StronglySorted key_lt l ->
  Forall (fun x => x.1 <> kv.1) l ->
  StronglySorted key_lt (json.insert_item kv l).
Proof.
  induction 1 as [|kv' l Hs IH Hall]; intros Hne; simpl.
  - repeat constructor.
  - apply Forall_cons in Hne as [Hkv' Hne].
    destruct (String.leb kv.1 kv'.1) eqn:Hle.
    + assert (Hlt : key_lt kv kv') by (apply leb_ne_ltb; [done|congruence]).
      constructor; [by constructor|].
      constructor; [done|].
      eapply Forall_impl; [exact Hall|].
      intros x Hx. by etrans.
    + constructor; [by apply IH|].
      rewrite insert_item_perm. constructor; [|done].
      by apply leb_false_ltb.
Qed.

Lemma sort_items_sorted l :
  NoDup (l.*1) -> StronglySorted key_lt (json.sort_items l).
Proof.
  induction l as [|kv l IH]; simpl; [constructor|].
  rewrite NoDup_cons. intros [Hnotin Hnd].
  apply insert_item_sorted; [by apply IH|].
  rewrite sort_items_perm. apply Forall_forall.
  intros x Hx Heq. apply Hnotin. rewrite <- Heq.
  apply list_elem_of_fmap. by exists x.
Qed.

Lemma sort_items_order_invariant l1 l2 :
  NoDup (l1.*1) -> l1 ≡ₚ l2 -> json.sort_items l1 = json.sort_items l2.
Proof.
  intros Hnd Hperm.
  apply (StronglySorted_unique key_lt).
  - by apply sort_items_sorted.
  - apply sort_items_sorted. by rewrite <- Hperm.
  - by rewrite !sort_items_perm.
Qed.

(** ** The items of the query arguments *)

Lemma filter_other_keys (k : string) (d : list (string * string)) :
  k ∉ d.*1 -> filter (fun kv => negb (String.eqb kv.1 k)) d = d.
Proof.
  induction d as [|[k' v'] d IH]; simpl; [done|].
  rewrite not_elem_of_cons. intros [Hne Hnotin].
  rewrite filter_cons. simpl.
  destruct (String.eqb_spec k' k) as [->|_]; [done|].
  simpl. by rewrite IH.
Qed.

Lemma items_nodup_id d : NoDup (d.*1) -> MultiDict.items d = d.
Proof.
  induction d as [|[k v] d IH]; simpl; [done|].
  rewrite NoDup_cons. intros [Hnotin Hnd].
  rewrite IH by done. by rewrite filter_other_keys.
Qed.

Lemma items_lookup d k v :
  (k, v) ∈ MultiDict.items d <-> MultiDict.get d k = Some v.
Proof.
  induction d as [|[k' v'] d IH]; simpl.
  - split; [by intros ?%elem_of_nil|done].
  - rewrite elem_of_cons, list_elem_of_filter, IH. simpl.
    destruct (String.eqb_spec k' k) as [->|Hne].
    + rewrite String.eqb_refl. simpl. split.
      * intros [[= ->]|[[] _]]; done.
      * intros [= ->]. by left.
    + split.
      * intros [[= -> ->]|[_ ?]]; done.
      * intros ?. right. split; [|done].
        destruct (String.eqb_spec k k'); [congruence|done].
Qed.

Lemma items_nodup_keys d : NoDup ((MultiDict.items d).*1).
Proof.
  induction d as [|[k v] d IH]; simpl; [constructor|].
  apply NoDup_cons. split.
  - rewrite list_elem_of_fmap. intros [[k' v'] [Hk [Hf _]%list_elem_of_filter]].
    simpl in *. destruct (String.eqb_spec k' k); [done|congruence].
  - eapply sublist_NoDup; [exact IH|].
    apply fmap_sublist, sublist_filter.
Qed.

Lemma items_same_mapping d1 d2 :
  (forall k, MultiDict.get d1 k = MultiDict.get d2 k) ->
  MultiDict.items d1 ≡ₚ MultiDict.items d2.
Proof.
  intros Hget.
  apply NoDup_Permutation.
  - eapply NoDup_fmap_1, items_nodup_keys.
  - eapply NoDup_fmap_1, items_nodup_keys.
  - intros [k v]. by rewrite !items_lookup, Hget.
Qed.

Lemma get_permutation d1 d2 k :
  NoDup (d1.*1) -> d1 ≡ₚ d2 -> MultiDict.get d1 k = MultiDict.get d2 k.
Proof.
  intros Hnd Hperm.
  assert (Hnd2 : NoDup (d2.*1)) by (by rewrite <- Hperm).
  destruct (MultiDict.get d1 k) as [v|] eqn:H1.
  - symmetry. apply items_lookup. rewrite items_nodup_id by done.
    rewrite <- Hperm. rewrite <- (items_nodup_id d1) by done.
    by apply items_lookup.
  - destruct (MultiDict.get d2 k) as [v|] eqn:H2; [|done].
    apply items_lookup in H2. rewrite items_nodup_id in H2 by done.
    rewrite <- Hperm in H2. rewrite <- (items_nodup_id d1) in H2 by done.
    apply items_lookup in H2. congruence.
Qed.

(** The key depends on the arguments as a mapping only: two query
    strings that give every key the same first value have the same key,
    whatever the order and the repetitions. *)
Lemma identity_same_mapping im d1 d2 :
  (forall k, MultiDict.get d1 k = MultiDict.get d2 k) ->
  identity im d1 = identity im d2.
Proof.
  intros Hget. unfold identity, json.dumps_sort_keys.
  rewrite (sort_items_order_invariant (MultiDict.items d1) (MultiDict.items d2));
    [done|apply items_nodup_keys|by apply items_same_mapping].
Qed.

(** C1. The cache key does not depend on the order of the parameters:
    two lists of query parameters with distinct keys that hold the same
    key-value pairs in different orders have the same key. The key is the
    hexadecimal MD5 digest of the UTF-8 bytes of the identifier, a dash and
    the JSON object of the parameters, whose items are the parameters
    themselves put in strictly increasing order of their keys. *)
Theorem C1_identity_order_invariant (im : string) (args1 args2 : MultiDict.t) :
  NoDup (args1.*1) ->
  args1 ≡ₚ args2 ->
  identity im args1 = identity im args2
  /\ identity im args1 =
       Py.hex (hashlib.md5 (Py.encode_utf8
         (im +:+ "-" +:+ json.encode_dict (json.sort_items args1))))
  /\ StronglySorted key_lt (json.sort_items args1)
  /\ json.sort_items args1 ≡ₚ args1.
Proof.
  intros Hnd Hperm. repeat split.
  - apply identity_same_mapping. intros k. by apply get_permutation.
  - unfold identity, json.dumps_sort_keys, Py.join2.
    by rewrite items_nodup_id.
  - by apply sort_items_sorted.
  - apply sort_items_perm.
Qed.

(** ** The handler, branch by branch *)

Lemma image_unfold im args w : image im args w = image_cases im args w.
Proof.
  unfold image, image_cases, mime, after.
  destruct (Py.contains ".." im); [done|].
  unfold bind, isfile, log, raise, lift, send_file, ret. simpl.
  destruct (files w !! os_path.join images_path im) as [data|] eqn:Hsrc.
  2: { rewrite bool_decide_eq_false_2 by (by intros [? ?]). done. }
  rewrite bool_decide_eq_true_2 by eauto. simpl.
  destruct (MultiDict.is_empty args).
  { unfold bind, log. simpl. rewrite Hsrc. by rewrite <- app_assoc. }
  unfold bind, log. simpl.
  destruct (files w !! target_path im args) as [stored|] eqn:Htgt.
  { rewrite bool_decide_eq_true_2 by eauto. simpl.
    rewrite Htgt. by rewrite <- !app_assoc. }
  rewrite bool_decide_eq_false_2 by (by intros [? ?]). simpl.
  unfold process, Image_open, Image_save, bind, log, lift. simpl.
  rewrite Hsrc.
  destruct (identify data) as [[width height]|]; [|by rewrite <- !app_assoc].
  destruct (transform args (PIL.decoded data width height)) as [out|e];
    [|by rewrite <- !app_assoc].
  destruct (jpeg out) as [bytes|]; simpl; [|by rewrite <- !app_assoc].
  rewrite lookup_insert_eq. by rewrite <- !app_assoc.
Qed.

(** ** Floats that are quotients of integers *)

Lemma int_of_float_truediv a b q :
  Py.truediv a b = Ok q -> Py.int_of_float q = a ÷ b.
Proof.
  unfold Py.truediv. destruct (Z.eqb_spec b 0) as [|Hb]; [done|].
  intros [= <-]. unfold Py.int_of_float, Qdiv, Qinv, Qmult, inject_Z. simpl.
  destruct b as [|p|p]; [done| |]; simpl.
  - by rewrite Z.mul_1_r.
  - replace (a * -1) with (- a) by lia.
    rewrite Z.quot_opp_l by done.
    change (Z.neg p) with (- Z.pos p). by rewrite Z.quot_opp_r.
Qed.

Lemma truediv_two a : Py.truediv a 2 = Ok (Qdiv (inject_Z a) (inject_Z 2)).
Proof. done. Qed.

Lemma int_of_float_half_diff a b :
  Py.int_of_float
    (Qminus (Qdiv (inject_Z a) (inject_Z 2)) (Qdiv (inject_Z b) (inject_Z 2)))
  = (a - b) ÷ 2.
Proof.
  unfold Py.int_of_float, Qminus, Qplus, Qopp, Qdiv, Qinv, Qmult, inject_Z.
  simpl. change (Z.pos (1 * 2 * (1 * 2))) with (2 * 2).
  change (Z.pos (1 * 2)) with 2.
  replace (a * 1 * 2 + - (b * 1) * 2) with (2 * (a - b)) by lia.
  by rewrite Z.quot_mul_cancel_l.
Qed.

Lemma int_of_float_half_sum a b :
  Py.int_of_float
    (Qplus (Qdiv (inject_Z a) (inject_Z 2)) (Qdiv (inject_Z b) (inject_Z 2)))
  = (a + b) ÷ 2.
Proof.
  unfold Py.int_of_float, Qplus, Qdiv, Qinv, Qmult, inject_Z.
  simpl. change (Z.pos (1 * 2 * (1 * 2))) with (2 * 2).
  change (Z.pos (1 * 2)) with 2.
  replace (a * 1 * 2 + b * 1 * 2) with (2 * (a + b)) by lia.
  by rewrite Z.quot_mul_cancel_l.
Qed.

Lemma half_sum_diff a b : 0 <= b <= a -> (a + b) ÷ 2 = (a - b) ÷ 2 + b.
Proof.
  intros ?. rewrite !Z.quot_div_nonneg by lia.
  replace (a + b) with (a - b + b * 2) by lia.
  by rewrite Z.div_add.
Qed.

(** ** Reading the arguments *)

#[local] Arguments Py.int : simpl never.
#[local] Arguments Py.int_literal : simpl never.
#[local] Arguments PIL.resize : simpl never.

Lemma getitem_truthy args k :
  Py.truthy (MultiDict.get args k) = true ->
  exists s, MultiDict.get args k = Some s /\ MultiDict.getitem args k = Ok s.
Proof.
  unfold MultiDict.getitem. destruct (MultiDict.get args k) as [s|]; [|done].
  intros _. by exists s.
Qed.

Lemma int_Some s n : Py.int_literal s = Some n -> Py.int s = Ok n.
Proof. unfold Py.int_literal. destruct (Py.int s); by intros [= ->]. Qed.

Lemma int_None s :
  Py.int_literal s = None ->
  exists why, Py.int s = Raise (ValueError why)
              /\ kind_of (ValueError why) = InvalidParameter.
Proof.
  unfold Py.int_literal, Py.int.
  destruct (Py.literal s); [|by eexists].
  destruct (_ <? _); [by eexists|done].
Qed.

Lemma int_cases s :
  (exists n, Py.int_literal s = Some n /\ Py.int s = Ok n)
  \/ (Py.int_literal s = None
      /\ exists why, Py.int s = Raise (ValueError why)
                     /\ kind_of (ValueError why) = InvalidParameter).
Proof.
  destruct (Py.int_literal s) as [n|] eqn:Hint.
  - left. exists n. split; [done|]. by apply int_Some.
  - right. split; [done|]. by apply int_None.
Qed.

Lemma int_literal_truthy args k s n :
  MultiDict.get args k = Some s -> Py.int_literal s = Some n ->
  Py.truthy (MultiDict.get args k) = true /\ MultiDict.getitem args k = Ok s.
Proof.
  intros Hget Hint. unfold MultiDict.getitem. rewrite Hget.
  by destruct s.
Qed.

(** ** Pillow's resize *)

Lemma c_int_spec n : PIL.c_int n = true <-> PIL.INT_MIN <= n <= PIL.INT_MAX.
Proof. unfold PIL.c_int. rewrite andb_true_iff, !Z.leb_le. done. Qed.

Lemma resize_size im w h out :
  PIL.resize fits im (w, h) = Ok out -> PIL.size out = (w, h).
Proof.
  unfold PIL.resize.
  destruct ((PIL.size im).1 =? w) eqn:Hw, ((PIL.size im).2 =? h) eqn:Hh; simpl.
  { intros [= <-]. apply Z.eqb_eq in Hw, Hh. by destruct (PIL.size im); simplify_eq/=. }
  all: destruct (negb _); [done|].
  all: destruct ((w <? 1) || (h <? 1)); [done|].
  all: destruct (fits _); [|done]; by intros [= <-].
Qed.

Lemma resize_positive im w h :
  1 <= w <= PIL.INT_MAX -> 1 <= h <= PIL.INT_MAX -> fits (w, h) = true ->
  exists out, PIL.resize fits im (w, h) = Ok out.
Proof.
  intros Hw Hh Hfits. unfold PIL.resize.
  destruct (_ && _); [by eexists|].
  rewrite (proj2 (c_int_spec w)), (proj2 (c_int_spec h))
    by (unfold PIL.INT_MIN; lia).
  simpl. rewrite Hfits.
  destruct (Z.ltb_spec w 1), (Z.ltb_spec h 1); try lia. by eexists.
Qed.

Lemma resize_degenerate im w h :
  0 < (PIL.size im).1 -> 0 < (PIL.size im).2 ->
  PIL.INT_MIN <= w <= PIL.INT_MAX -> PIL.INT_MIN <= h <= PIL.INT_MAX ->
  w <= 0 \/ h <= 0 ->
  PIL.resize fits im (w, h) = Raise (ValueError size_not_positive).
Proof.
  intros HW HH Hw Hh Hdeg. unfold PIL.resize.
  rewrite (proj2 (c_int_spec w)), (proj2 (c_int_spec h)) by done.
  destruct (Z.eqb_spec (PIL.size im).1 w), (Z.eqb_spec (PIL.size im).2 h);
    simpl; try lia.
  all: destruct (Z.ltb_spec w 1), (Z.ltb_spec h 1); simpl; try done; lia.
Qed.

Lemma resize_overflow im w h :
  0 < (PIL.size im).1 <= PIL.INT_MAX -> 0 < (PIL.size im).2 <= PIL.INT_MAX ->
  PIL.c_int w && PIL.c_int h = false ->
  PIL.resize fits im (w, h) = Raise OverflowError.
Proof.
  intros HW HH Hbig. unfold PIL.resize. rewrite Hbig.
  destruct (Z.eqb_spec (PIL.size im).1 w), (Z.eqb_spec (PIL.size im).2 h);
    simpl; try done.
  subst w h. apply andb_false_iff in Hbig.
  unfold PIL.c_int, PIL.INT_MIN in Hbig.
  rewrite !andb_false_iff, !Z.leb_gt in Hbig. lia.
Qed.

(** ** The resize block *)

Lemma resize_stage_requested args im sz :
  requested_size args (PIL.size im) sz ->
  resize_stage args im = PIL.resize fits im sz.
Proof.
  unfold resize_stage.
  destruct 1 as [h w nh nw Hh Hw Hnh Hnw|h nh Hh Hw Hnh Hne|w nw Hw Hh Hnw Hne].
  - destruct (int_literal_truthy _ _ _ _ Hh Hnh) as [-> ->].
    destruct (int_literal_truthy _ _ _ _ Hw Hnw) as [-> ->].
    simpl. by rewrite (int_Some _ _ Hnh), (int_Some _ _ Hnw).
  - destruct (int_literal_truthy _ _ _ _ Hh Hnh) as [-> ->].
    rewrite Hw. simpl. rewrite (int_Some _ _ Hnh). simpl.
    destruct (Py.truediv _ _) as [q|e] eqn:Hq.
    + simpl. by rewrite (int_of_float_truediv _ _ _ Hq).
    + unfold Py.truediv in Hq. by destruct (Z.eqb_spec (PIL.size im).2 0).
  - rewrite Hh. destruct (int_literal_truthy _ _ _ _ Hw Hnw) as [-> ->].
    simpl. rewrite (int_Some _ _ Hnw). simpl.
    destruct (Py.truediv _ _) as [q|e] eqn:Hq.
    + simpl. by rewrite (int_of_float_truediv _ _ _ Hq).
    + unfold Py.truediv in Hq. by destruct (Z.eqb_spec (PIL.size im).1 0).
Qed.

(** C4 (amended). With the height only, and as long as
    [new_height * original_width] stays below 2^53 in absolute value
    (where the division of binary64 is exact), the resize block asks for
    the width [new_height * original_width / original_height] truncated
    towards zero (not rounded) and the height given. The image it returns
    has that size whenever both sides are at least 1, are C [int]s, and
    Pillow gets the memory for them; a side beyond the C [int]s makes the
    block fail with [OverflowError]. With the width only, the same with
    the roles of the sides exchanged. *)
Theorem C4_resize_one_side_truncates (args : MultiDict.t) (im : PIL.Image) :
  let original_width := (PIL.size im).1 in
  let original_height := (PIL.size im).2 in
  0 < original_width <= PIL.INT_MAX -> 0 < original_height <= PIL.INT_MAX ->
  (forall h new_height,
      MultiDict.get args "h" = Some h ->
      Py.truthy (MultiDict.get args "w") = false ->
      Py.int_literal h = Some new_height ->
      Z.abs (new_height * original_width) < 2 ^ 53 ->
      let new_width := (new_height * original_width) ÷ original_height in
      resize_stage args im = PIL.resize fits im (new_width, new_height)
      /\ (1 <= new_width <= PIL.INT_MAX -> 1 <= new_height <= PIL.INT_MAX ->
          fits (new_width, new_height) = true ->
          exists out, resize_stage args im = Ok out
                      /\ PIL.size out = (new_width, new_height))
      /\ (PIL.c_int new_width && PIL.c_int new_height = false ->
          resize_stage args im = Raise OverflowError))
  /\ (forall w new_width,
      MultiDict.get args "w" = Some w ->
      Py.truthy (MultiDict.get args "h") = false ->
      Py.int_literal w = Some new_width ->
      Z.abs (new_width * original_height) < 2 ^ 53 ->
      let new_height := (new_width * original_height) ÷ original_width in
      resize_stage args im = PIL.resize fits im (new_width, new_height)
      /\ (1 <= new_width <= PIL.INT_MAX -> 1 <= new_height <= PIL.INT_MAX ->
          fits (new_width, new_height) = true ->
          exists out, resize_stage args im = Ok out
                      /\ PIL.size out = (new_width, new_height))
      /\ (PIL.c_int new_width && PIL.c_int new_height = false ->
          resize_stage args im = Raise OverflowError)).
Proof.
  intros W H HW HH. split.
  - intros h nh Hh Hw Hnh _ nw.
    assert (Hreq : resize_stage args im = PIL.resize fits im (nw, nh)).
    { apply resize_stage_requested. eapply height_only; eauto. fold H. lia. }
    split; [done|]. split.
    + intros Hnw1 Hnh1 Hfits.
      destruct (resize_positive im nw nh Hnw1 Hnh1 Hfits) as [out Hout].
      exists out. rewrite Hreq. split; [done|]. by eapply resize_size.
    + intros Hbig. rewrite Hreq. by apply resize_overflow.
  - intros w nw Hw Hh Hnw _ nh.
    assert (Hreq : resize_stage args im = PIL.resize fits im (nw, nh)).
    { apply resize_stage_requested. eapply width_only; eauto. fold W. lia. }
    split; [done|]. split.
    + intros Hnw1 Hnh1 Hfits.
      destruct (resize_positive im nw nh Hnw1 Hnh1 Hfits) as [out Hout].
      exists out. rewrite Hreq. split; [done|]. by eapply resize_size.
    + intros Hbig. rewrite Hreq. by apply resize_overflow.
Qed.

(** ** The crop block *)


(** ** The rotate block *)

Lemma rotate_size im angle : PIL.size (PIL.rotate im angle) = PIL.size im.
Proof. unfold PIL.rotate. by destruct (angle mod 360 =? 0). Qed.



(** ** Requests that never reach the cache *)

(** C9. A request whose identifier contains [..] is refused with an
    [AssertionError] (the handler's invalid reference) before any access
    to the file system: the world, files and trace, is left as it was. *)
Theorem C9_traversal_refused_before_access (im : string)
    (args : MultiDict.t) (w : world) :
  Py.contains ".." im = true ->
  image im args w = (Raise AssertionError, w)
  /\ kind_of AssertionError = InvalidReference
  /\ trace (image im args w).2 = trace w.
Proof.
  intros Hdots. rewrite image_unfold. unfold image_cases. by rewrite Hdots.
Qed.

(** C3. A request without parameters is served from the source file:
    the response carries the bytes of the stored source, the files are
    untouched, and the only accesses are the existence check and the read
    of the source; nothing under the cache directory is looked up or
    written. *)
Theorem C3_no_params_serves_source (im : string) (w : world)
    (data : list byte) :
  let path := os_path.join images_path im in
  Py.contains ".." im = false ->
  files w !! path = Some data ->
  image im [] w =
    (Ok (Resp data mime), after w [ev_isfile path; ev_send_file path])
  /\ files (image im [] w).2 = files w.
Proof.
  intros path Hdots Hsrc. rewrite image_unfold. unfold image_cases.
  fold path. by rewrite Hdots, Hsrc.
Qed.

(** ** Requests with parameters *)

Lemma is_empty_get args k v :
  MultiDict.get args k = Some v -> MultiDict.is_empty args = false.
Proof. by destruct args. Qed.

Lemma transform_identity args im :
  (forall k, k ∈ ["w"; "h"; "format"; "rot"; "flip"] ->
             MultiDict.get args k = None) ->
  transform args im = Ok im.
Proof.
  intros Hnone.
  assert (Hw : MultiDict.get args "w" = None) by (apply Hnone; repeat constructor).
  assert (Hh : MultiDict.get args "h" = None) by (apply Hnone; repeat constructor).
  assert (Hf : MultiDict.get args "format" = None) by (apply Hnone; repeat constructor).
  assert (Hr : MultiDict.get args "rot" = None) by (apply Hnone; repeat constructor).
  assert (Hl : MultiDict.get args "flip" = None) by (apply Hnone; repeat constructor).
  unfold transform, resize_stage, crop_stage, rotate_stage, flip_stage.
  rewrite Hw, Hh, Hf, Hr, Hl. done.
Qed.

(** C10. A request whose parameters are not empty but name none of
    [w], [h], [format], [rot] and [flip] is not served from the source
    file. Its key is derived; on a miss the source is decoded, goes
    through the four blocks unchanged, is encoded as JPEG and stored under
    the key, and the response carries that encoding; on a hit the
    response carries what is stored under the key. *)
Theorem C10_unknown_params_are_reencoded (im : string) (args : MultiDict.t)
    (w : world) (data : list byte) (width height : Z) (out : list byte) :
  let path := os_path.join images_path im in
  let target := target_path im args in
  let source := PIL.decoded data width height in
  args <> [] ->
  (forall k, k ∈ ["w"; "h"; "format"; "rot"; "flip"] ->
             MultiDict.get args k = None) ->
  Py.contains ".." im = false ->
  files w !! path = Some data ->
  identify data = Some (width, height) ->
  jpeg source = Some out ->
  transform args source = Ok source
  /\ match files w !! target with
     | None =>
         image im args w =
           (Ok (Resp out mime),
            World (<[target := out]> (files w))
              (trace w ++ [ev_isfile path; ev_isfile target;
                           ev_image_open path; ev_image_save target;
                           ev_send_file target]))
     | Some stored =>
         image im args w =
           (Ok (Resp stored mime),
            after w [ev_isfile path; ev_isfile target; ev_send_file target])
     end.
Proof.
  intros path target source Hne Hnone Hdots Hsrc Hid Hjpeg.
  pose proof (transform_identity args source Hnone) as Htr.
  split; [done|].
  rewrite image_unfold. unfold image_cases. fold path target.
  rewrite Hdots, Hsrc.
  destruct args as [|kv args']; [done|]. simpl MultiDict.is_empty. cbv iota.
  destruct (files w !! target); [done|].
  rewrite Hid. fold source. by rewrite Htr, Hjpeg.
Qed.


(** ** Which blocks can fail, and how *)



Lemma rotate_stage_cases args im :
  (unparsable (MultiDict.get args "rot") = true
   /\ exists why, rotate_stage args im = Raise (ValueError why)
                  /\ kind_of (ValueError why) = InvalidParameter)
  \/ (unparsable (MultiDict.get args "rot") = false
      /\ exists out, rotate_stage args im = Ok out).
Proof.
  unfold rotate_stage, unparsable, MultiDict.getitem.
  destruct (MultiDict.get args "rot") as [[|c s]|]; simpl;
    [right; eauto| |right; eauto].
  destruct (int_cases (String c s)) as [(n & -> & ->)|(-> & why & -> & Hkind)];
    simpl; eauto.
Qed.





(** ** The cache over a sequence of requests *)

Lemma image_keeps_files im args w p b :
  files w !! p = Some b -> files (image im args w).2 !! p = Some b.
Proof.
  intros Hp. rewrite image_unfold. unfold image_cases.
  destruct (Py.contains ".." im); [done|].
  destruct (files w !! os_path.join images_path im) as [data|]; [|done].
  destruct (MultiDict.is_empty args); [done|].
  destruct (files w !! target_path im args) as [stored|] eqn:Htgt; [done|].
  destruct (identify data) as [[width height]|]; [|done].
  destruct (transform args _) as [out|e]; [|done].
  destruct (jpeg out) as [bytes|]; [|done].
  simpl. rewrite lookup_insert_ne; [done|]. congruence.
Qed.

Lemma serve_all_keeps_files requests w p b :
  files w !! p = Some b -> files (serve_all requests w) !! p = Some b.
Proof.
  revert w. induction requests as [|[im args] requests IH]; intros w Hp; [done|].
  simpl. apply IH. by apply image_keeps_files.
Qed.

(** C2. When a request with parameters finds no artifact under its
    key and succeeds, it stores the bytes it returns under the key, with
    one save. After that, whatever requests come in between, every file
    keeps its content (so the artifact is never overwritten), and the
    same request is answered with the same bytes read from the cache,
    without opening the source or saving anything. More generally, in
    any world where the source exists and some bytes are stored under the
    key, the request returns those bytes and runs no part of the
    pipeline. *)
Theorem C2_artifact_written_once_then_reused (im : string)
    (args : MultiDict.t) (w w1 : world) (r : Response)
    (later : list (string * MultiDict.t)) :
  let target := target_path im args in
  let w2 := serve_all later w1 in
  args <> [] ->
  files w !! target = None ->
  image im args w = (Ok r, w1) ->
  files w1 = <[target := body r]> (files w)
  /\ (exists evs, trace w1 = (trace w ++ evs)%list
                  /\ List.filter is_save_event evs = [ev_image_save target])
  /\ (forall p b, files w1 !! p = Some b -> files w2 !! p = Some b)
  /\ files w2 !! target = Some (body r)
  /\ (exists evs, image im args w2 = (Ok r, after w2 evs)
                  /\ List.filter is_pipeline_event evs = [])
  /\ (forall w' stored,
        is_Some (files w' !! os_path.join images_path im) ->
        files w' !! target = Some stored ->
        exists evs, image im args w' = (Ok (Resp stored mime), after w' evs)
                    /\ List.filter is_pipeline_event evs = []).
Proof.
  intros target w2 Hne Htgt Hrun.
  rewrite image_unfold in Hrun. unfold image_cases in Hrun. fold target in Hrun.
  destruct (Py.contains ".." im) eqn:Hdots; [done|].
  destruct (files w !! os_path.join images_path im) as [data|] eqn:Hsrc; [|done].
  destruct args as [|kv args']; [done|]. simpl MultiDict.is_empty in Hrun.
  cbv iota in Hrun. rewrite Htgt in Hrun.
  destruct (identify data) as [[width height]|]; [|done].
  destruct (transform _ _) as [out|e]; [|done].
  destruct (jpeg out) as [bytes|]; [|done].
  injection Hrun as <- <-. simpl.
  assert (Hkeep : forall p b,
    <[target := bytes]> (files w) !! p = Some b -> files w2 !! p = Some b).
  { intros p b Hp. by apply serve_all_keeps_files. }
  assert (Htgt2 : files w2 !! target = Some bytes).
  { apply Hkeep. apply lookup_insert_eq. }
  assert (Hsrc2 : files w2 !! os_path.join images_path im = Some data).
  { apply Hkeep. rewrite lookup_insert_ne; [done|]. congruence. }
  repeat split; try done.
  - eexists. split; [reflexivity|]. reflexivity.
  - rewrite image_unfold. unfold image_cases. fold target.
    rewrite Hdots, Hsrc2. simpl MultiDict.is_empty. cbv iota.
    rewrite Htgt2. eexists. split; [reflexivity|]. reflexivity.
  - intros w' stored [data' Hsrc'] Htgt'.
    rewrite image_unfold. unfold image_cases. fold target.
    rewrite Hdots, Hsrc'. simpl MultiDict.is_empty. cbv iota.
    rewrite Htgt'. eexists. split; [reflexivity|]. reflexivity.
Qed.

(** * Further properties of the image view *)

(** ** Failures of the image view *)

(** X1. A request for a source that is not there fails with
    [OSError(path)] after the existence check alone, whatever the
    parameters and whatever the cache holds: an artifact left under the
    key of a source that has gone is never served. *)
Theorem X1_missing_source_fails_first (im : string) (args : MultiDict.t)
    (w : world) :
  let path := os_path.join images_path im in
  Py.contains ".." im = false ->
  files w !! path = None ->
  image im args w = (Raise (OSError path), after w [ev_isfile path])
  /\ kind_of (OSError path) = NotFound.
Proof.
  intros path Hdots Hsrc. rewrite image_unfold. unfold image_cases.
  fold path. by rewrite Hdots, Hsrc.
Qed.

(** X2. A request with parameters for a source that Pillow does not
    identify fails, on a miss, with [UnidentifiedImageError] once the
    source was opened; nothing is saved, so the failure is not cached and
    the same request fails the same way again. *)
Theorem X2_undecodable_source_fails (im : string) (args : MultiDict.t)
    (w : world) (data : list byte) :
  let path := os_path.join images_path im in
  let target := target_path im args in
  let failed :=
    after w [ev_isfile path; ev_isfile target; ev_image_open path] in
  Py.contains ".." im = false ->
  args <> [] ->
  files w !! path = Some data ->
  files w !! target = None ->
  identify data = None ->
  image im args w = (Raise (UnidentifiedImageError path), failed)
  /\ (image im args failed).1 = Raise (UnidentifiedImageError path)
  /\ files (image im args failed).2 = files w.
Proof.
  intros path target failed Hdots Hne Hsrc Htgt Hid.
  destruct args as [|kv args']; [done|].
  rewrite !image_unfold. unfold image_cases. fold path target.
  simpl files. rewrite Hdots, Hsrc, Htgt, Hid. done.
Qed.

(** X3. What a request does to the files: either nothing, or it adds
    one file, under its own key, that was not there before, and answers
    with the bytes it stored. A request that raises leaves the files as
    they were, and the trace only grows. *)
Theorem X3_one_new_file_at_most (im : string) (args : MultiDict.t)
    (w : world) :
  let target := target_path im args in
  let r := (image im args w).1 in
  let w' := (image im args w).2 in
  (files w' = files w
   \/ (files w !! target = None
       /\ exists out, r = Ok (Resp out mime)
                      /\ files w' = <[target := out]> (files w)))
  /\ (forall e, r = Raise e -> files w' = files w)
  /\ (exists evs, trace w' = (trace w ++ evs)%list).
Proof.
  intros target r w'. subst r w'.
  rewrite image_unfold. unfold image_cases, after. fold target.
  destruct (Py.contains ".." im).
  { simpl. repeat split; eauto. exists []. by rewrite app_nil_r. }
  destruct (files w !! os_path.join images_path im) as [data|]; [|simpl; eauto 6].
  destruct (MultiDict.is_empty args); [simpl; eauto 6|].
  destruct (files w !! target) as [stored|] eqn:Htgt; [simpl; eauto 6|].
  destruct (identify data) as [[width height]|]; [|simpl; eauto 6].
  destruct (transform args _) as [out|e]; [|simpl; eauto 6].
  destruct (jpeg out) as [bytes|]; simpl.
  - split; [right; eauto|]. split; [done|eauto].
  - rewrite <- app_assoc. eauto 6.
Qed.

(** ** The size of what the pipeline returns *)

Lemma resize_stage_inv args im mid :
  resize_stage args im = Ok mid ->
  mid = im \/ exists sz, PIL.resize fits im sz = Ok mid.
Proof.
  unfold resize_stage, MultiDict.getitem.
  destruct (Py.truthy (MultiDict.get args "h") && Py.truthy (MultiDict.get args "w")) eqn:Hhw.
  { apply andb_prop in Hhw as [Hh Hw].
    destruct (MultiDict.get args "h") as [h|]; [|done].
    destruct (MultiDict.get args "w") as [w|]; [|done]. simpl.
    destruct (Py.int h) as [nh|]; [|done]. simpl.
    destruct (Py.int w) as [nw|]; [|done]. simpl.
    intros Hr. right. exists (nw, nh). exact Hr. }
  destruct (Py.truthy (MultiDict.get args "h")) eqn:Hh.
  { destruct (MultiDict.get args "h") as [h|]; [|done]. simpl.
    destruct (Py.int h) as [nh|]; [|done]. simpl.
    destruct (Py.truediv _ _) as [q|]; [|done]. simpl.
    intros Hr. right. exists (Py.int_of_float q, nh). exact Hr. }
  destruct (Py.truthy (MultiDict.get args "w")) eqn:Hw.
  { destruct (MultiDict.get args "w") as [v|]; [|done]. simpl.
    destruct (Py.int v) as [nw|]; [|done]. simpl.
    destruct (Py.truediv _ _) as [q|]; [|done]. simpl.
    intros Hr. right. exists (nw, Py.int_of_float q). exact Hr. }
  intros [= <-]. by left.
Qed.

Lemma resize_keeps_positive im sz out :
  positive_size (PIL.size im) -> PIL.resize fits im sz = Ok out ->
  positive_size (PIL.size out).
Proof.
  intros Hpos. destruct sz as [w h]. unfold PIL.resize.
  destruct (_ && _); [by intros [= <-]|].
  destruct (negb _); [done|].
  destruct (Z.ltb_spec w 1), (Z.ltb_spec h 1); simpl; try done.
  destruct (fits _); [|done].
  intros [= <-]. simpl. unfold positive_size. simpl. lia.
Qed.

Lemma crop_stage_size args im out :
  positive_size (PIL.size im) ->
  crop_stage args im = Ok out ->
  if bool_decide (MultiDict.get args "format" = Some "square") then
    PIL.size out = (Z.min (PIL.size im).1 (PIL.size im).2,
                    Z.min (PIL.size im).1 (PIL.size im).2)
  else out = im.
Proof.
  intros [HW HH]. unfold crop_stage.
  destruct (bool_decide _); [|by intros [= <-]].
  set (W := (PIL.size im).1) in *. set (H := (PIL.size im).2) in *.
  destruct (Z.gtb_spec W H).
  { rewrite !truediv_two. simpl. intros [= <-]. simpl.
    rewrite int_of_float_half_sum, int_of_float_half_diff.
    rewrite half_sum_diff by lia. f_equal; lia. }
  destruct (Z.ltb_spec W H).
  { rewrite !truediv_two. simpl. intros [= <-]. simpl.
    rewrite int_of_float_half_sum, int_of_float_half_diff.
    rewrite half_sum_diff by lia. f_equal; lia. }
  intros [= <-]. destruct (PIL.size im) as [a b] eqn:Hsz. subst W H.
  simpl in *. f_equal; lia.
Qed.

Lemma rotate_stage_size args im out :
  rotate_stage args im = Ok out -> PIL.size out = PIL.size im.
Proof.
  unfold rotate_stage, MultiDict.getitem.
  destruct (Py.truthy _); [|by intros [= <-]].
  destruct (MultiDict.get args "rot") as [r|]; [|done]. simpl.
  destruct (Py.int r) as [angle|]; [|done]. simpl.
  intros [= <-]. apply rotate_size.
Qed.

Lemma flip_stage_size args im out :
  flip_stage args im = Ok out -> PIL.size out = PIL.size im.
Proof.
  unfold flip_stage. repeat case_bool_decide; by intros [= <-].
Qed.

Lemma transform_inv args im out :
  transform args im = Ok out ->
  exists mid cut turned,
    resize_stage args im = Ok mid /\ crop_stage args mid = Ok cut
    /\ rotate_stage args cut = Ok turned /\ flip_stage args turned = Ok out.
Proof.
  unfold transform.
  destruct (resize_stage args im) as [mid|]; [|done]. simpl.
  destruct (crop_stage args mid) as [cut|] eqn:Hcut; [|done]. simpl.
  destruct (rotate_stage args cut) as [turned|] eqn:Hturn; [|done]. simpl.
  intros Hflip. by exists mid, cut, turned.
Qed.

(** X4. The pipeline never returns an empty image: from a source with
    positive sides, whatever the parameters, an image that comes out of
    the four blocks has positive sides. *)
Theorem X4_output_has_positive_sides (args : MultiDict.t)
    (im out : PIL.Image) :
  positive_size (PIL.size im) ->
  transform args im = Ok out ->
  positive_size (PIL.size out).
Proof.
  intros Hpos (mid & cut & turned & Hmid & Hcut & Hturn & Hflip)%transform_inv.
  assert (Hmidpos : positive_size (PIL.size mid)).
  { destruct (resize_stage_inv _ _ _ Hmid) as [->|[sz Hsz]]; [done|].
    by eapply resize_keeps_positive. }
  rewrite (flip_stage_size _ _ _ Hflip), (rotate_stage_size _ _ _ Hturn).
  pose proof (crop_stage_size _ _ _ Hmidpos Hcut) as Hsz.
  destruct (bool_decide _); [|by subst].
  rewrite Hsz. destruct Hmidpos. unfold positive_size. simpl. lia.
Qed.

Lemma transform_size args im out :
  positive_size (PIL.size im) ->
  transform args im = Ok out ->
  exists mid,
    resize_stage args im = Ok mid
    /\ PIL.size out =
         if bool_decide (MultiDict.get args "format" = Some "square") then
           (Z.min (PIL.size mid).1 (PIL.size mid).2,
            Z.min (PIL.size mid).1 (PIL.size mid).2)
         else PIL.size mid.
Proof.
  intros Hpos (mid & cut & turned & Hmid & Hcut & Hturn & Hflip)%transform_inv.
  exists mid. split; [done|].
  assert (Hmidpos : positive_size (PIL.size mid)).
  { destruct (resize_stage_inv _ _ _ Hmid) as [->|[sz Hsz]]; [done|].
    by eapply resize_keeps_positive. }
  rewrite (flip_stage_size _ _ _ Hflip), (rotate_stage_size _ _ _ Hturn).
  pose proof (crop_stage_size _ _ _ Hmidpos Hcut) as Hsz.
  destruct (bool_decide _); [done|by subst].
Qed.

(** X5. How the blocks compose on the size. The size of the result is
    decided by the resize and the crop alone, rotation and flips never
    change it: with [format=square] the result is the square whose side is
    the smaller side of the resized image, and without it the result has
    the size of the resized image. *)
Theorem X5_size_after_the_pipeline (args : MultiDict.t)
    (im out : PIL.Image) :
  positive_size (PIL.size im) ->
  transform args im = Ok out ->
  exists mid,
    resize_stage args im = Ok mid
    /\ PIL.size out =
         if bool_decide (MultiDict.get args "format" = Some "square") then
           (Z.min (PIL.size mid).1 (PIL.size mid).2,
            Z.min (PIL.size mid).1 (PIL.size mid).2)
         else PIL.size mid.
Proof. apply transform_size. Qed.

(** X6. With both [w] and [h], the result has exactly the size asked
    for, whatever the shape of the source (the aspect ratio is not kept),
    or the square of the smaller of the two when [format=square] is given
    as well. *)
Theorem X6_both_sides_give_the_exact_size (args : MultiDict.t)
    (im out : PIL.Image) (h w : string) (new_height new_width : Z) :
  positive_size (PIL.size im) ->
  MultiDict.get args "h" = Some h ->
  MultiDict.get args "w" = Some w ->
  Py.int_literal h = Some new_height ->
  Py.int_literal w = Some new_width ->
  transform args im = Ok out ->
  PIL.size out =
    if bool_decide (MultiDict.get args "format" = Some "square") then
      (Z.min new_width new_height, Z.min new_width new_height)
    else (new_width, new_height).
Proof.
  intros Hpos Hh Hw Hnh Hnw Hout.
  destruct (transform_size args im out Hpos Hout) as (mid & Hmid & Hsz).
  rewrite (resize_stage_requested args im (new_width, new_height)) in Hmid
    by (by eapply both_sides).
  apply resize_size in Hmid. by rewrite Hmid in Hsz.
Qed.

(** X7. A resize by one side whose other side would come out below one
    pixel fails: with the height only, when [new_height * original_width]
    is less than [original_height] the width truncates to zero (or is
    negative) and Pillow refuses the size, even for a positive height; the
    same with the width only. Nothing is clamped to one pixel. The two
    sides are C [int]s: Pillow converts the size before it looks at its
    sign. *)
Theorem X7_thin_result_is_refused (args : MultiDict.t) (im : PIL.Image) :
  let original_width := (PIL.size im).1 in
  let original_height := (PIL.size im).2 in
  positive_size (PIL.size im) ->
  (forall h new_height,
      MultiDict.get args "h" = Some h ->
      Py.truthy (MultiDict.get args "w") = false ->
      Py.int_literal h = Some new_height ->
      new_height * original_width < original_height ->
      PIL.INT_MIN <= new_height <= PIL.INT_MAX ->
      PIL.INT_MIN <= (new_height * original_width) ÷ original_height ->
      resize_stage args im = Raise (ValueError size_not_positive))
  /\ (forall w new_width,
      MultiDict.get args "w" = Some w ->
      Py.truthy (MultiDict.get args "h") = false ->
      Py.int_literal w = Some new_width ->
      new_width * original_height < original_width ->
      PIL.INT_MIN <= new_width <= PIL.INT_MAX ->
      PIL.INT_MIN <= (new_width * original_height) ÷ original_width ->
      resize_stage args im = Raise (ValueError size_not_positive)).
Proof.
  intros W H [HW HH].
  assert (Hquot : forall a b, 0 < b -> a < b -> a ÷ b <= 0).
  { intros a b Hb Hab. destruct (Z.le_gt_cases 0 a).
    - rewrite Z.quot_small; lia.
    - replace a with (- - a) by lia. rewrite Z.quot_opp_l by lia.
      pose proof (Z.quot_pos (- a) b). lia. }
  split.
  - intros h nh Hh Hw Hnh Hsmall Hrange Hlow.
    pose proof (Hquot _ _ HH Hsmall) as Hle. fold W H in Hle.
    rewrite (resize_stage_requested args im ((nh * W) ÷ H, nh)).
    + apply resize_degenerate; [done|done| |done|by left].
      unfold PIL.INT_MAX. lia.
    + eapply height_only; eauto. fold H. lia.
  - intros w nw Hw Hh Hnw Hsmall Hrange Hlow.
    pose proof (Hquot _ _ HW Hsmall) as Hle. fold W H in Hle.
    rewrite (resize_stage_requested args im (nw, (nw * H) ÷ W)).
    + apply resize_degenerate; [done|done|done| |by right].
      unfold PIL.INT_MAX. lia.
    + eapply width_only; eauto. fold W. lia.
Qed.

(** ** The shape of the key and of the cache path *)

Lemma append_nil_l (b : string) : "" +:+ b = b.
Proof. reflexivity. Qed.

Lemma append_cons (x : ascii) (a b : string) :
  String x a +:+ b = String x (a +:+ b).
Proof. reflexivity. Qed.

Lemma append_assoc (a b c : string) : (a +:+ b) +:+ c = a +:+ b +:+ c.
Proof.
  induction a as [|x a IH]; [done|]. rewrite !append_cons. by f_equal.
Qed.

Lemma append_nil_r (a : string) : a +:+ "" = a.
Proof.
  induction a as [|x a IH]; [done|]. rewrite append_cons. by f_equal.
Qed.

Lemma append_cancel_l (a b c : string) : a +:+ b = a +:+ c -> b = c.
Proof.
  induction a as [|x a IH]; [done|]. rewrite !append_cons. intros [= ?]. auto.
Qed.

Lemma append_eq_nil (a b : string) : a +:+ b = "" -> a = "" /\ b = "".
Proof. destruct a; [done|]. rewrite append_cons. discriminate. Qed.

Lemma endswith_sep_append (a b : string) :
  b <> "" -> os_path.endswith_sep (a +:+ b) = os_path.endswith_sep b.
Proof.
  intros Hb. induction a as [|x a IH]; [done|].
  rewrite append_cons. simpl. rewrite IH.
  destruct (a +:+ b) eqn:Hab; [|done].
  by apply append_eq_nil in Hab as [_ ?].
Qed.

(** The two directories of the server differ by their last component
    only. *)
Lemma dirs_shape :
  exists prefix,
    images_path = prefix +:+ "images" /\ cached_path = prefix +:+ "cached".
Proof.
  unfold images_path, cached_path, os_path.join. simpl os_path.startswith_sep.
  cbv iota. destruct (_ || _).
  - by exists root.
  - exists (root +:+ "/"). split; symmetry; apply append_assoc.
Qed.

Lemma join_child (parent dir name : string) :
  dir <> "" ->
  os_path.endswith_sep dir = false ->
  os_path.startswith_sep name = false ->
  os_path.join (parent +:+ dir) name = parent +:+ dir +:+ "/" +:+ name.
Proof.
  intros Hne Hend Hname. unfold os_path.join. rewrite Hname.
  rewrite endswith_sep_append, Hend by done.
  destruct (String.eqb_spec (parent +:+ dir) "") as [Hnil|_].
  - by apply append_eq_nil in Hnil as [_ ?].
  - simpl. by rewrite append_assoc.
Qed.

Lemma md5_length msg : length (hashlib.md5 msg) = 16%nat.
Proof.
  unfold hashlib.md5.
  destruct (fold_left _ _ _) as [[[a b] c] d]. reflexivity.
Qed.

Lemma hex_digit_lower_hex n :
  0 <= n < 16 -> Str.is_lower_hex (Py.hex_digit n) = true.
Proof.
  intros Hn. rewrite <- (Z2Nat.id n) by lia.
  assert (Hm : (Z.to_nat n < 16)%nat) by lia.
  revert Hm. generalize (Z.to_nat n). intros m Hm.
  do 16 (destruct m as [|m]; [reflexivity|]). lia.
Qed.

Lemma byte_code_range b : 0 <= Py.byte_code b < 256.
Proof.
  unfold Py.byte_code. pose proof (Byte.to_N_bounded b). lia.
Qed.

Lemma hex_shape bs :
  String.length (Py.hex bs) = (2 * length bs)%nat
  /\ Str.all Str.is_lower_hex (Py.hex bs) = true.
Proof.
  induction bs as [|b bs [IHlen IHall]]; [done|].
  pose proof (byte_code_range b) as Hb.
  simpl. split; [rewrite IHlen; lia|].
  rewrite !hex_digit_lower_hex, IHall; [done| |].
  - apply Z.mod_pos_bound. lia.
  - split; [apply Z.div_pos; lia|apply Z.div_lt_upper_bound; lia].
Qed.

Lemma identity_shape im args :
  String.length (identity im args) = 32%nat
  /\ Str.all Str.is_lower_hex (identity im args) = true.
Proof.
  unfold identity. destruct (hex_shape (hashlib.md5
    (Py.encode_utf8 (Py.join2 "-" im (json.dumps_sort_keys args)))))
    as [Hlen Hall].
  by rewrite md5_length in Hlen.
Qed.

Lemma lower_hex_not_sep s :
  s <> "" -> Str.all Str.is_lower_hex s = true ->
  os_path.startswith_sep s = false.
Proof.
  destruct s as [|c s]; [done|]. intros _. simpl.
  intros [Hc _]%andb_prop.
  destruct (Ascii.eqb_spec c "/") as [->|Hne]; [done|].
  unfold os_path.startswith_sep.
  destruct c as [[] [] [] [] [] [] [] []]; try done.
Qed.

Lemma target_path_eq im args :
  target_path im args = cached_path +:+ "/" +:+ identity im args +:+ ".jpg".
Proof.
  destruct (identity_shape im args) as [Hlen Hall].
  assert (Hrel : os_path.startswith_sep (identity im args) = false).
  { apply lower_hex_not_sep; [|done].
    intros Hnil. by rewrite Hnil in Hlen. }
  destruct dirs_shape as (prefix & _ & Hcached).
  unfold target_path. rewrite Hcached, join_child by done.
  by rewrite !append_assoc.
Qed.

(** X8. Whatever the identifier and the parameters, the key is 32
    lower-case hexadecimal digits, and the artifact lies directly in the
    cache directory, under the key followed by [.jpg]: nothing a client
    sends can steer the path of what is written. *)
Theorem X8_cache_path_is_a_hex_name (im : string) (args : MultiDict.t) :
  String.length (identity im args) = 32%nat
  /\ Str.all Str.is_lower_hex (identity im args) = true
  /\ target_path im args =
       cached_path +:+ "/" +:+ identity im args +:+ ".jpg".
Proof.
  destruct (identity_shape im args) as [Hlen Hall].
  split; [done|]. split; [done|]. apply target_path_eq.
Qed.

(** ** The text that is hashed loses nothing of the parameters *)

Lemma unescape_escape (c : ascii) (r : string) :
  Decode.unescape (json.escape c +:+ r) = Some (c, r).
Proof. destruct c as [[] [] [] [] [] [] [] []]; reflexivity. Qed.

Lemma unescape_quote (r : string) :
  Decode.unescape (String json.quote r) = None.
Proof. reflexivity. Qed.

Lemma escape_all_inj s1 s2 r1 r2 :
  json.escape_all s1 +:+ String json.quote r1
  = json.escape_all s2 +:+ String json.quote r2 ->
  s1 = s2 /\ r1 = r2.
Proof.
  revert s2. induction s1 as [|c1 s1 IH]; intros [|c2 s2]; simpl json.escape_all.
  - rewrite !append_nil_l. by intros [= ->].
  - rewrite append_nil_l, append_assoc. intros Heq.
    apply (f_equal Decode.unescape) in Heq.
    by rewrite unescape_quote, unescape_escape in Heq.
  - rewrite append_nil_l, append_assoc. intros Heq.
    apply (f_equal Decode.unescape) in Heq.
    by rewrite unescape_quote, unescape_escape in Heq.
  - rewrite !append_assoc. intros Heq.
    apply (f_equal Decode.unescape) in Heq.
    rewrite !unescape_escape in Heq. injection Heq as -> Heq.
    destruct (IH _ Heq) as [-> ->]. done.
Qed.

Lemma encode_str_inj s1 s2 r1 r2 :
  json.encode_str s1 +:+ r1 = json.encode_str s2 +:+ r2 ->
  s1 = s2 /\ r1 = r2.
Proof.
  unfold json.encode_str. rewrite !append_cons, !append_assoc, !append_cons.
  rewrite !append_nil_l. intros [= Heq]. by apply escape_all_inj.
Qed.

Lemma encode_item_inj kv1 kv2 r1 r2 :
  json.encode_item kv1 +:+ r1 = json.encode_item kv2 +:+ r2 ->
  kv1 = kv2 /\ r1 = r2.
Proof.
  unfold json.encode_item. rewrite !append_assoc.
  intros [Hk Heq]%encode_str_inj.
  apply append_cancel_l with (a := ": ") in Heq.
  apply encode_str_inj in Heq as [Hv Hr].
  destruct kv1, kv2; simpl in *. by subst.
Qed.

Lemma join_items_cons kv l r :
  json.join_items (kv :: l) +:+ r
  = json.encode_item kv +:+
      match l with
      | [] => r
      | _ => ", " +:+ json.join_items l +:+ r
      end.
Proof. destruct l; simpl json.join_items; [done|]. by rewrite !append_assoc. Qed.

Lemma encode_item_head kv r :
  exists t, json.encode_item kv +:+ r = String json.quote t.
Proof.
  unfold json.encode_item, json.encode_str.
  rewrite !append_cons. by eexists.
Qed.

Lemma join_items_inj l1 l2 :
  json.join_items l1 +:+ "}" = json.join_items l2 +:+ "}" -> l1 = l2.
Proof.
  revert l2. induction l1 as [|kv1 l1 IH]; intros [|kv2 l2].
  - done.
  - rewrite join_items_cons. destruct (encode_item_head kv2
      match l2 with [] => "}" | _ => ", " +:+ json.join_items l2 +:+ "}" end)
      as [t ->]. discriminate.
  - rewrite join_items_cons. destruct (encode_item_head kv1
      match l1 with [] => "}" | _ => ", " +:+ json.join_items l1 +:+ "}" end)
      as [t ->]. discriminate.
  - rewrite !join_items_cons. intros [-> Hrest]%encode_item_inj.
    f_equal. destruct l1 as [|a l1], l2 as [|b l2]; try done.
    apply IH. by apply append_cancel_l with (a := ", ") in Hrest.
Qed.

Lemma encode_dict_inj l1 l2 :
  json.encode_dict l1 = json.encode_dict l2 -> l1 = l2.
Proof.
  unfold json.encode_dict. intros Heq.
  apply append_cancel_l with (a := "{") in Heq. by apply join_items_inj.
Qed.

Lemma dumps_same_mapping d1 d2 :
  json.dumps_sort_keys d1 = json.dumps_sort_keys d2
  <-> forall k, MultiDict.get d1 k = MultiDict.get d2 k.
Proof.
  unfold json.dumps_sort_keys. split.
  - intros Hsort%encode_dict_inj k.
    assert (Hperm : MultiDict.items d1 ≡ₚ MultiDict.items d2).
    { by rewrite <- (sort_items_perm (MultiDict.items d1)), Hsort,
        sort_items_perm. }
    destruct (MultiDict.get d1 k) as [v|] eqn:H1.
    + symmetry. apply items_lookup. rewrite <- Hperm. by apply items_lookup.
    + destruct (MultiDict.get d2 k) as [v|] eqn:H2; [|done].
      apply items_lookup in H2. rewrite <- Hperm in H2.
      apply items_lookup in H2. congruence.
  - intros Hget. f_equal.
    apply sort_items_order_invariant; [apply items_nodup_keys|].
    by apply items_same_mapping.
Qed.

Lemma utf8_head_encode (c : ascii) (s : string) :
  Decode.utf8_head (Py.encode_utf8 (String c s)) = Some (c, Py.encode_utf8 s).
Proof. destruct c as [[] [] [] [] [] [] [] []]; reflexivity. Qed.

Lemma encode_utf8_inj s1 s2 :
  Py.encode_utf8 s1 = Py.encode_utf8 s2 -> s1 = s2.
Proof.
  revert s2. induction s1 as [|c1 s1 IH]; intros [|c2 s2] Heq.
  - done.
  - apply (f_equal Decode.utf8_head) in Heq.
    by rewrite utf8_head_encode in Heq.
  - apply (f_equal Decode.utf8_head) in Heq.
    by rewrite utf8_head_encode in Heq.
  - apply (f_equal Decode.utf8_head) in Heq.
    rewrite !utf8_head_encode in Heq. injection Heq as -> Heq.
    f_equal. by apply IH.
Qed.

Lemma length_append (a b : string) :
  String.length (a +:+ b) = (String.length a + String.length b)%nat.
Proof.
  induction a as [|x a IH]; [done|]. rewrite append_cons. simpl. by rewrite IH.
Qed.

Lemma append_cancel_r (a b c : string) : a +:+ c = b +:+ c -> a = b.
Proof.
  revert b. induction a as [|x a IH]; intros [|y b].
  - done.
  - rewrite append_nil_l, append_cons. intros Heq.
    apply (f_equal String.length) in Heq. simpl in Heq.
    rewrite length_append in Heq. lia.
  - rewrite append_nil_l, append_cons. intros Heq.
    apply (f_equal String.length) in Heq. simpl in Heq.
    rewrite length_append in Heq. lia.
  - rewrite !append_cons. intros [= -> Heq]. f_equal. by apply IH.
Qed.

(** X9. The bytes that are hashed lose nothing of the request. For one
    identifier, two lists of parameters give the same bytes exactly when
    they give every key the same first value; and for the same
    parameters, two identifiers give the same bytes only when they are
    equal. So two requests for one image that differ as mappings can only
    share an artifact through a collision of MD5. *)
Theorem X9_hashed_text_determines_the_request :
  (forall (im : string) (args1 args2 : MultiDict.t),
      Py.encode_utf8 (Py.join2 "-" im (json.dumps_sort_keys args1))
      = Py.encode_utf8 (Py.join2 "-" im (json.dumps_sort_keys args2))
      <-> forall k, MultiDict.get args1 k = MultiDict.get args2 k)
  /\ (forall (im1 im2 : string) (args : MultiDict.t),
      Py.encode_utf8 (Py.join2 "-" im1 (json.dumps_sort_keys args))
      = Py.encode_utf8 (Py.join2 "-" im2 (json.dumps_sort_keys args))
      -> im1 = im2).
Proof.
  split.
  - intros im args1 args2. rewrite <- dumps_same_mapping. split.
    + intros Heq%encode_utf8_inj. unfold Py.join2 in Heq.
      by do 2 apply append_cancel_l in Heq.
    + by intros ->.
  - intros im1 im2 args Heq%encode_utf8_inj. unfold Py.join2 in Heq.
    by apply append_cancel_r in Heq.
Qed.

(** * Properties of the upload *)

(** ** Which names are accepted *)

Lemma contains_char_cons (x c : ascii) (s : string) :
  Py.contains (String x "") (String c s)
  = Ascii.eqb c x || Py.contains (String x "") s.
Proof.
  simpl. destruct (ascii_dec x c) as [->|Hne].
  - rewrite Ascii.eqb_refl. by destruct s.
  - destruct (Ascii.eqb_spec c x); [congruence|done].
Qed.

Lemma contains_char_append (x : ascii) (a b : string) :
  Py.contains (String x "") (a +:+ b)
  = Py.contains (String x "") a || Py.contains (String x "") b.
Proof.
  induction a as [|c a IH]; [done|].
  rewrite append_cons, !contains_char_cons, IH. by rewrite orb_assoc.
Qed.

Lemma rsplit_dot_no_dot s :
  Py.contains "." s = false -> PyStr.rsplit_dot s = [s].
Proof.
  induction s as [|c s IH]; [done|].
  rewrite contains_char_cons. intros [Hc Hs]%orb_false_elim.
  simpl. rewrite IH by done. by rewrite Hc.
Qed.

Lemma rsplit_dot_last stem ext :
  Py.contains "." ext = false ->
  PyStr.rsplit_dot (stem +:+ "." +:+ ext) = [stem; ext].
Proof.
  intros Hext. induction stem as [|c stem IH].
  - rewrite append_nil_l, append_cons, append_nil_l. simpl.
    by rewrite rsplit_dot_no_dot.
  - rewrite append_cons. simpl. by rewrite IH.
Qed.

Lemma contains_dot_last s :
  Py.contains "." s = true ->
  exists stem ext, s = stem +:+ "." +:+ ext /\ Py.contains "." ext = false.
Proof.
  induction s as [|c s IH]; [done|].
  rewrite contains_char_cons.
  destruct (Py.contains "." s) eqn:Hs.
  - intros _. destruct IH as (stem & ext & -> & Hext); [done|].
    exists (String c stem), ext. by rewrite append_cons.
  - rewrite orb_false_r. intros ->%Ascii.eqb_eq.
    by exists "", s.
Qed.

Lemma allowed_file_iff (filename : string) :
  allowed_file filename = true
  <-> exists stem extension,
        filename = stem +:+ "." +:+ extension
        /\ Py.contains "." extension = false
        /\ PyStr.lower extension ∈ ALLOWED_EXTENSIONS.
Proof.
  unfold allowed_file. split.
  - intros [Hdot Hext]%andb_prop.
    destruct (contains_dot_last _ Hdot) as (stem & ext & -> & Hno).
    rewrite rsplit_dot_last in Hext by done.
    apply bool_decide_eq_true in Hext. by exists stem, ext.
  - intros (stem & ext & -> & Hno & Hin).
    rewrite rsplit_dot_last by done.
    rewrite !contains_char_append. simpl Py.contains at 2.
    rewrite orb_true_r. simpl. by apply bool_decide_eq_true.
Qed.

(** X10. A file name is accepted exactly when the text after its last
    dot is, whatever its case, one of [png], [jpg], [jpeg] and [gif]: a
    name without a dot is refused, only the last extension counts, and the
    text before the dot may be anything, also empty. *)
Theorem X10_allowed_file_reads_the_last_extension (filename : string) :
  allowed_file filename = true
  <-> exists stem extension,
        filename = stem +:+ "." +:+ extension
        /\ Py.contains "." extension = false
        /\ PyStr.lower extension ∈ ALLOWED_EXTENSIONS.
Proof. apply allowed_file_iff. Qed.

(** ** The name under which an upload is stored *)

Lemma letter_facts (c : ascii) :
  Str.is_letter c = true ->
  werkzeug.nfkd_ascii c = String c ""
  /\ Ascii.eqb c "/" = false
  /\ PyStr.isspace c = false
  /\ werkzeug.keeps c = true
  /\ werkzeug.dot_or_underscore c = false.
Proof. destruct c as [[] [] [] [] [] [] [] []]; done. Qed.

Lemma lower_char_letter (c : ascii) :
  Str.is_letter (PyStr.lower_char c) = true -> Str.is_letter c = true.
Proof. destruct c as [[] [] [] [] [] [] [] []]; done. Qed.

Lemma lower_letters (s : string) :
  Str.all Str.is_letter (PyStr.lower s) = true ->
  Str.all Str.is_letter s = true.
Proof.
  induction s as [|c s IH]; [done|]. simpl.
  intros [Hc Hs]%andb_prop. by rewrite lower_char_letter, IH.
Qed.

Lemma allowed_extension_letters (ext : string) :
  PyStr.lower ext ∈ ALLOWED_EXTENSIONS ->
  ext <> "" /\ Str.all Str.is_letter ext = true.
Proof.
  unfold ALLOWED_EXTENSIONS. rewrite !elem_of_union, !elem_of_singleton.
  intros Hin. split.
  - intros ->. simpl in Hin. by destruct Hin as [[[?|?]|?]|?].
  - apply lower_letters. by destruct Hin as [[[->| ->]| ->]| ->].
Qed.

Lemma normalize_ascii_append a b :
  werkzeug.normalize_ascii (a +:+ b)
  = werkzeug.normalize_ascii a +:+ werkzeug.normalize_ascii b.
Proof.
  induction a as [|c a IH]; [done|].
  rewrite append_cons. simpl. by rewrite IH, append_assoc.
Qed.

Lemma normalize_ascii_letters e :
  Str.all Str.is_letter e = true -> werkzeug.normalize_ascii e = e.
Proof.
  induction e as [|c e IH]; [done|]. simpl. intros [Hc He]%andb_prop.
  destruct (letter_facts c Hc) as (-> & _). by rewrite IH.
Qed.

Lemma replace_sep_append a b :
  werkzeug.replace_sep (a +:+ b)
  = werkzeug.replace_sep a +:+ werkzeug.replace_sep b.
Proof.
  induction a as [|c a IH]; [done|].
  rewrite append_cons. simpl. by rewrite IH, append_cons.
Qed.

Lemma replace_sep_letters e :
  Str.all Str.is_letter e = true -> werkzeug.replace_sep e = e.
Proof.
  induction e as [|c e IH]; [done|]. simpl. intros [Hc He]%andb_prop.
  destruct (letter_facts c Hc) as (_ & -> & _). by rewrite IH.
Qed.

Lemma join_words_letters e :
  Str.all Str.is_letter e = true -> werkzeug.join_words werkzeug.in_word e = e.
Proof.
  induction e as [|c e IH]; [done|]. simpl. intros [Hc He]%andb_prop.
  destruct (letter_facts c Hc) as (_ & _ & -> & _). by rewrite IH.
Qed.

Lemma join_words_suffix p s e :
  Str.all Str.is_letter e = true -> e <> "" ->
  exists head, werkzeug.join_words p (s +:+ e) = head +:+ e.
Proof.
  intros He Hne. revert p. induction s as [|c s IH]; intros p.
  - rewrite append_nil_l. destruct e as [|c e]; [done|].
    simpl in He. apply andb_prop in He as [Hc He].
    destruct (letter_facts c Hc) as (_ & _ & Hsp & _).
    simpl. rewrite Hsp, join_words_letters by done.
    destruct p; [by exists ""..|by exists "_"].
  - rewrite append_cons. simpl. destruct (PyStr.isspace c).
    + apply IH.
    + destruct (IH werkzeug.in_word) as [head ->].
      destruct p; [by exists (String c head)..|].
      by exists (String "_" (String c head)).
Qed.

Lemma strip_others_append a b :
  werkzeug.strip_others (a +:+ b)
  = werkzeug.strip_others a +:+ werkzeug.strip_others b.
Proof.
  induction a as [|c a IH]; [done|].
  rewrite append_cons. simpl. destruct (werkzeug.keeps c); [|done].
  by rewrite IH, append_cons.
Qed.

Lemma strip_others_letters e :
  Str.all Str.is_letter e = true -> werkzeug.strip_others e = e.
Proof.
  induction e as [|c e IH]; [done|]. simpl. intros [Hc He]%andb_prop.
  destruct (letter_facts c Hc) as (_ & _ & _ & -> & _). by rewrite IH.
Qed.

Lemma rstrip_letters e :
  Str.all Str.is_letter e = true -> werkzeug.rstrip e = e.
Proof.
  induction e as [|c e IH]; [done|]. simpl. intros [Hc He]%andb_prop.
  destruct (letter_facts c Hc) as (_ & _ & _ & _ & Hdu).
  rewrite IH by done. destruct e; [by rewrite Hdu|done].
Qed.

Lemma rstrip_suffix s e :
  Str.all Str.is_letter e = true -> e <> "" ->
  werkzeug.rstrip (s +:+ e) = s +:+ e.
Proof.
  intros He Hne. induction s as [|c s IH].
  - by apply rstrip_letters.
  - rewrite append_cons. simpl. rewrite IH.
    destruct (s +:+ e) eqn:Hse; [|done].
    by apply append_eq_nil in Hse as [_ ?].
Qed.

Lemma lstrip_suffix s e :
  Str.all Str.is_letter e = true -> e <> "" ->
  exists head, werkzeug.lstrip (s +:+ e) = head +:+ e.
Proof.
  intros He Hne. induction s as [|c s IH].
  - rewrite append_nil_l. exists "". destruct e as [|c e]; [done|].
    simpl in He. apply andb_prop in He as [Hc _].
    destruct (letter_facts c Hc) as (_ & _ & _ & _ & Hdu).
    simpl. by rewrite Hdu.
  - rewrite append_cons. simpl. destruct (werkzeug.dot_or_underscore c).
    + apply IH.
    + by exists (String c s).
Qed.

Lemma secure_filename_suffix s e :
  Str.all Str.is_letter e = true -> e <> "" ->
  exists head, werkzeug.secure_filename (s +:+ e) = head +:+ e.
Proof.
  intros He Hne. unfold werkzeug.secure_filename.
  rewrite normalize_ascii_append, replace_sep_append.
  rewrite (normalize_ascii_letters e), (replace_sep_letters e) by done.
  destruct (join_words_suffix werkzeug.at_start
              (werkzeug.replace_sep (werkzeug.normalize_ascii s)) e He Hne)
    as [head ->].
  rewrite strip_others_append, (strip_others_letters e) by done.
  rewrite rstrip_suffix by done. by apply lstrip_suffix.
Qed.

Lemma all_append p a b :
  Str.all p (a +:+ b) = Str.all p a && Str.all p b.
Proof.
  induction a as [|c a IH]; [done|].
  rewrite append_cons. simpl. by rewrite IH, andb_assoc.
Qed.

Lemma strip_others_keeps s :
  Str.all werkzeug.keeps (werkzeug.strip_others s) = true.
Proof.
  induction s as [|c s IH]; [done|]. simpl.
  destruct (werkzeug.keeps c) eqn:Hc; [|done]. simpl. by rewrite Hc.
Qed.

Lemma rstrip_all p s :
  Str.all p s = true -> Str.all p (werkzeug.rstrip s) = true.
Proof.
  induction s as [|c s IH]; [done|]. simpl. intros [Hc Hs]%andb_prop.
  specialize (IH Hs). destruct (werkzeug.rstrip s).
  - destruct (werkzeug.dot_or_underscore c); [done|]. simpl. by rewrite Hc.
  - simpl in *. by rewrite Hc.
Qed.

Lemma lstrip_all p s :
  Str.all p s = true -> Str.all p (werkzeug.lstrip s) = true.
Proof.
  induction s as [|c s IH]; [done|]. simpl. intros [Hc Hs]%andb_prop.
  destruct (werkzeug.dot_or_underscore c); [by apply IH|].
  simpl. by rewrite Hc.
Qed.

Lemma lstrip_head s c t :
  werkzeug.lstrip s = String c t -> werkzeug.dot_or_underscore c = false.
Proof.
  induction s as [|x s IH]; [done|]. simpl.
  destruct (werkzeug.dot_or_underscore x) eqn:Hx; [done|].
  by intros [= <- _].
Qed.

Lemma secure_filename_keeps filename :
  Str.all werkzeug.keeps (werkzeug.secure_filename filename) = true.
Proof.
  unfold werkzeug.secure_filename.
  apply lstrip_all, rstrip_all, strip_others_keeps.
Qed.

Lemma keeps_no_sep s :
  Str.all werkzeug.keeps s = true ->
  Py.contains "/" s = false
  /\ os_path.startswith_sep s = false
  /\ os_path.endswith_sep s = false.
Proof.
  induction s as [|c s IH]; [done|]. simpl Str.all.
  intros [Hc Hs]%andb_prop. destruct (IH Hs) as (Hin & _ & Hend).
  assert (Hne : Ascii.eqb c "/" = false).
  { destruct c as [[] [] [] [] [] [] [] []]; done. }
  rewrite contains_char_cons, Hne, Hin. split; [done|]. split.
  - unfold os_path.startswith_sep.
    destruct (Ascii.eqb_spec c "/") as [->|Hc']; [done|].
    destruct c as [[] [] [] [] [] [] [] []]; done.
  - simpl. rewrite Hne, Hend. by destruct s.
Qed.

(** ** What an upload does *)

Lemma allowed_key_suffix filename :
  allowed_file filename = true ->
  exists stem extension head,
    filename = stem +:+ "." +:+ extension
    /\ Py.contains "." extension = false
    /\ extension <> ""
    /\ werkzeug.secure_filename filename = head +:+ extension.
Proof.
  intros (stem & ext & -> & Hno & Hin)%allowed_file_iff.
  destruct (allowed_extension_letters ext Hin) as [Hne Hletters].
  destruct (secure_filename_suffix (stem +:+ ".") ext Hletters Hne) as [head Hkey].
  rewrite append_assoc in Hkey. by exists stem, ext, head.
Qed.

Lemma stored_path (key : string) :
  key <> "" -> Str.all werkzeug.keeps key = true ->
  os_path.join images_path key = images_path +:+ "/" +:+ key
  /\ os_path.endswith_sep (images_path +:+ "/" +:+ key) = false.
Proof.
  intros Hne Hkeeps. destruct (keeps_no_sep key Hkeeps) as (_ & Hstart & Hend).
  destruct dirs_shape as (prefix & -> & _). split.
  - rewrite join_child by done. by rewrite !append_assoc.
  - rewrite endswith_sep_append by (by destruct key).
    rewrite append_cons, append_nil_l. simpl. rewrite Hend. by destruct key.
Qed.

Lemma images_accepted filename content w :
  allowed_file filename = true ->
  let key := werkzeug.secure_filename filename in
  let stored := <[images_path +:+ "/" +:+ key := content]> (files w) in
  key <> ""
  /\ images POST (Some (filename, content)) w
     = (Ok (render (walk stored images_path)), World stored (trace w)).
Proof.
  intros Hallowed key stored.
  destruct (allowed_key_suffix filename Hallowed)
    as (stem & ext & head & Hname & _ & Hext & Hkey).
  assert (Hne : key <> "").
  { unfold key. rewrite Hkey. by intros [_ ?]%append_eq_nil. }
  destruct (stored_path key Hne (secure_filename_keeps filename))
    as [Hjoin Hend].
  split; [done|].
  unfold images, bind, FileStorage_save. rewrite Hallowed.
  destruct (String.eqb_spec filename "") as [->|_]; [done|].
  simpl. fold key. by rewrite Hjoin, Hend.
Qed.

Lemma images_refused method file w :
  match method, file with
  | POST, Some (filename, _) => allowed_file filename = false
  | _, _ => True
  end ->
  images method file w = (Ok (render (walk (files w) images_path)), w).
Proof.
  unfold images, bind, ret. destruct method, file as [[filename content]|];
    try done.
  intros ->. by rewrite andb_false_r.
Qed.

(** X11. What the view [images] does to the files. A POST with a file
    of an accepted name stores the content directly in the images
    directory, under the sanitised name, which is never empty and is made
    of letters, digits, dots, dashes and underscores only; it replaces
    what was stored under that name and touches nothing else. Any other
    request to the view changes no file. In both cases the view answers
    with the rendered list. *)
Theorem X11_upload_stores_under_the_sanitised_name (method : http_method)
    (file : option (string * list byte)) (w : world) :
  let w' := (images method file w).2 in
  (images method file w).1 = Ok (render (walk (files w') images_path))
  /\ trace w' = trace w
  /\ match method, file with
     | POST, Some (filename, content) =>
         if allowed_file filename then
           let key := werkzeug.secure_filename filename in
           files w' = <[images_path +:+ "/" +:+ key := content]> (files w)
           /\ key <> ""
           /\ Str.all werkzeug.keeps key = true
         else files w' = files w
     | _, _ => files w' = files w
     end.
Proof.
  intros w'. subst w'.
  destruct method; [by rewrite images_refused|].
  destruct file as [[filename content]|]; [|by rewrite images_refused].
  destruct (allowed_file filename) eqn:Hallowed; [|by rewrite images_refused].
  destruct (images_accepted filename content w Hallowed) as [Hne ->].
  simpl. repeat split; try done. apply secure_filename_keeps.
Qed.

(** X12. The name under which an accepted file is stored ends with the
    letters of its extension as they were typed, so it is never empty and
    the write always succeeds; the dot before them may be lost. *)
Theorem X12_stored_name_ends_with_the_extension (filename : string) :
  allowed_file filename = true ->
  exists stem extension head,
    filename = stem +:+ "." +:+ extension
    /\ Py.contains "." extension = false
    /\ extension <> ""
    /\ werkzeug.secure_filename filename = head +:+ extension.
Proof. apply allowed_key_suffix. Qed.

(** ** Uploads and the cache *)

Lemma stored_path_not_target key im args :
  images_path +:+ "/" +:+ key <> target_path im args.
Proof.
  rewrite target_path_eq. destruct dirs_shape as (prefix & -> & ->).
  rewrite !append_assoc. intros Heq%append_cancel_l. discriminate.
Qed.

Lemma images_keeps_targets method file w im args :
  files (images method file w).2 !! target_path im args
  = files w !! target_path im args.
Proof.
  destruct method; [by rewrite images_refused|].
  destruct file as [[filename content]|]; [|by rewrite images_refused].
  destruct (allowed_file filename) eqn:Hallowed; [|by rewrite images_refused].
  destruct (images_accepted filename content w Hallowed) as [_ ->].
  simpl. apply lookup_insert_ne, stored_path_not_target.
Qed.

Lemma handle_keeps_artifacts r w im args b :
  files w !! target_path im args = Some b ->
  files (handle r w) !! target_path im args = Some b.
Proof.
  intros Hb. destruct r as [|method file|im' args']; simpl.
  - done.
  - by rewrite images_keeps_targets.
  - by apply image_keeps_files.
Qed.

(** X13. Once an artifact is stored under a key, no later request to
    the server changes it, whatever the route: not a view of an image, not
    an upload, also not the upload of a new image under the name of its
    source. *)
Theorem X13_artifacts_outlive_every_request (requests : list request)
    (w : world) (im : string) (args : MultiDict.t) (b : list byte) :
  files w !! target_path im args = Some b ->
  files (handle_all requests w) !! target_path im args = Some b.
Proof.
  revert w. induction requests as [|r requests IH]; intros w Hb; [done|].
  simpl. apply IH. by apply handle_keeps_artifacts.
Qed.

(** X14. An accepted upload can be fetched back: when the sanitised name
    has no [..], the view of that name without parameters returns the
    bytes that were uploaded, also after any number of views in between. *)
Theorem X14_upload_then_view_round_trip (filename : string)
    (content : list byte) (w : world) (later : list (string * MultiDict.t)) :
  let key := werkzeug.secure_filename filename in
  let uploaded := (images POST (Some (filename, content)) w).2 in
  let w' := serve_all later uploaded in
  allowed_file filename = true ->
  Py.contains ".." key = false ->
  (image key [] w').1 = Ok (Resp content mime).
Proof.
  intros key uploaded w' Hallowed Hdots.
  destruct (images_accepted filename content w Hallowed) as [Hne Hup].
  destruct (stored_path key Hne (secure_filename_keeps filename)) as [Hjoin _].
  assert (Hsrc : files w' !! os_path.join images_path key = Some content).
  { apply serve_all_keeps_files. unfold uploaded. rewrite Hup. simpl.
    rewrite Hjoin. apply lookup_insert_eq. }
  rewrite image_unfold. unfold image_cases. by rewrite Hdots, Hsrc.
Qed.

(** X15. The sanitiser and the view disagree on [..]: a file whose
    sanitised name contains two dots in a row is accepted and stored, but
    the view refuses that name in every world, so what was uploaded can
    never be fetched. *)
Theorem X15_stored_names_with_two_dots_are_never_served (filename : string)
    (content : list byte) (w : world) :
  let key := werkzeug.secure_filename filename in
  let uploaded := (images POST (Some (filename, content)) w).2 in
  allowed_file filename = true ->
  Py.contains ".." key = true ->
  files uploaded !! (images_path +:+ "/" +:+ key) = Some content
  /\ forall args w', image key args w' = (Raise AssertionError, w').
Proof.
  intros key uploaded Hallowed Hdots.
  destruct (images_accepted filename content w Hallowed) as [_ Hup].
  split.
  - unfold uploaded. rewrite Hup. simpl. apply lookup_insert_eq.
  - intros args w'. rewrite image_unfold. unfold image_cases.
    by rewrite Hdots.
Qed.

(** X16. The cache is never invalidated: after a new image is uploaded
    under the name of a source, the view without parameters returns the
    new bytes, while a view with parameters whose artifact was stored
    before still returns the old artifact. *)
Theorem X16_replaced_source_keeps_its_old_artifacts (filename : string)
    (content old : list byte) (args : MultiDict.t) (w : world) :
  let key := werkzeug.secure_filename filename in
  let uploaded := (images POST (Some (filename, content)) w).2 in
  allowed_file filename = true ->
  Py.contains ".." key = false ->
  args <> [] ->
  files w !! target_path key args = Some old ->
  (image key [] uploaded).1 = Ok (Resp content mime)
  /\ (image key args uploaded).1 = Ok (Resp old mime).
Proof.
  intros key uploaded Hallowed Hdots Hargs Hold.
  destruct (images_accepted filename content w Hallowed) as [Hne Hup].
  destruct (stored_path key Hne (secure_filename_keeps filename)) as [Hjoin _].
  assert (Hsrc : files uploaded !! os_path.join images_path key = Some content).
  { unfold uploaded. rewrite Hup. simpl. rewrite Hjoin. apply lookup_insert_eq. }
  assert (Htgt : files uploaded !! target_path key args = Some old).
  { unfold uploaded. by rewrite images_keeps_targets. }
  rewrite !image_unfold. unfold image_cases. rewrite Hdots, Hsrc, Htgt.
  by destruct args.
Qed.

(** ** Views do not disturb each other *)

Lemma image_response_frame im args w1 w2 :
  files w1 !! os_path.join images_path im = files w2 !! os_path.join images_path im ->
  files w1 !! target_path im args = files w2 !! target_path im args ->
  (image im args w1).1 = (image im args w2).1.
Proof.
  intros Hsrc Htgt. rewrite !image_unfold. unfold image_cases.
  rewrite Hsrc, Htgt.
  destruct (Py.contains ".." im); [done|].
  destruct (files w2 !! os_path.join images_path im) as [data|]; [|done].
  destruct (MultiDict.is_empty args); [done|].
  destruct (files w2 !! target_path im args); [done|].
  destruct (identify data) as [[width height]|]; [|done].
  destruct (transform args _) as [out|e]; [|done].
  by destruct (jpeg out).
Qed.

Lemma image_files_cases im args w :
  files (image im args w).2 = files w
  \/ exists out, files (image im args w).2
                 = <[target_path im args := out]> (files w).
Proof.
  rewrite image_unfold. unfold image_cases, after.
  destruct (Py.contains ".." im); [by left|].
  destruct (files w !! os_path.join images_path im) as [data|]; [|by left].
  destruct (MultiDict.is_empty args); [by left|].
  destruct (files w !! target_path im args); [by left|].
  destruct (identify data) as [[width height]|]; [|by left].
  destruct (transform args _) as [out|e]; [|by left].
  destruct (jpeg out) as [bytes|]; [|by left].
  right. by exists bytes.
Qed.

(** X17. A view answers the same whether or not another view was served
    before it, as long as the artifact of the other is neither its source
    nor its own artifact: what one request caches changes nothing for
    requests with other keys. *)
Theorem X17_views_with_other_keys_do_not_interfere (im1 im2 : string)
    (args1 args2 : MultiDict.t) (w : world) :
  target_path im1 args1 <> os_path.join images_path im2 ->
  target_path im1 args1 <> target_path im2 args2 ->
  (image im2 args2 (image im1 args1 w).2).1 = (image im2 args2 w).1.
Proof.
  intros Hsrc Htgt. apply image_response_frame.
  - destruct (image_files_cases im1 args1 w) as [->|[out ->]]; [done|].
    by rewrite lookup_insert_ne.
  - destruct (image_files_cases im1 args1 w) as [->|[out ->]]; [done|].
    by rewrite lookup_insert_ne.
Qed.


(** ** Sizes and numbers beyond the limits *)

(** X18. A request whose resize target has a side outside the C [int]s
    fails, on a miss, with [OverflowError] at the resize, after the source
    was opened: the later blocks do not run, so a [rot] that is not a
    number goes unnoticed, and nothing is saved. *)
Theorem X18_oversized_target_overflows (im : string) (args : MultiDict.t)
    (w : world) (data : list byte) (width height : Z) (tw th : Z) :
  let path := os_path.join images_path im in
  let target := target_path im args in
  Py.contains ".." im = false ->
  files w !! path = Some data ->
  files w !! target = None ->
  identify data = Some (width, height) ->
  0 < width <= PIL.INT_MAX -> 0 < height <= PIL.INT_MAX ->
  requested_size args (width, height) (tw, th) ->
  PIL.c_int tw && PIL.c_int th = false ->
  image im args w =
    (Raise OverflowError,
     after w [ev_isfile path; ev_isfile target; ev_image_open path])
  /\ files (image im args w).2 = files w.
Proof.
  intros path target Hdots Hsrc Htgt Hid HW HH Hreq Hbig.
  assert (Hne : MultiDict.is_empty args = false).
  { inversion Hreq; eauto using is_empty_get. }
  assert (Htr : transform args (PIL.decoded data width height)
                = Raise OverflowError).
  { unfold transform.
    rewrite (resize_stage_requested args (PIL.decoded data width height)
               (tw, th) Hreq).
    by rewrite resize_overflow. }
  rewrite image_unfold. unfold image_cases. fold path target.
  by rewrite Hdots, Hsrc, Hne, Htgt, Hid, Htr.
Qed.

(** A number of more than 4300 digits is refused like a word: [int()]
    raises [ValueError] for it, whatever its other characters, and the
    rotate block that reads it fails with the invalid parameter. *)
Lemma long_numbers_are_refused (s : string) :
  Py.max_str_digits < Py.digit_count s ->
  Py.int_literal s = None
  /\ (exists why, Py.int s = Raise (ValueError why)
                  /\ kind_of (ValueError why) = InvalidParameter)
  /\ forall args im,
       MultiDict.get args "rot" = Some s ->
       exists why, rotate_stage args im = Raise (ValueError why)
                   /\ kind_of (ValueError why) = InvalidParameter.
Proof.
  intros Hlong.
  assert (Hnone : Py.int_literal s = None).
  { unfold Py.int_literal, Py.int. destruct (Py.literal s); [|done].
    by rewrite (proj2 (Z.ltb_lt _ _) Hlong). }
  split; [done|]. split; [by apply int_None|].
  intros args im Hget.
  destruct (rotate_stage_cases args im) as [[_ Hfails]|[Hparses _]]; [done|].
  unfold unparsable in Hparses. rewrite Hget, Hnone in Hparses.
  destruct s as [|c s]; [|done].
  vm_compute in Hlong. discriminate Hlong.
Qed.

End Server.

(** * The server at work

    The theorems above, applied to the toy format and to a world that
    holds one 300x100 source, [/srv/images/a.png]. *)

Lemma C1_witness :
  let args1 := [("w", "100"); ("h", "50")] in
  let args2 := [("h", "50"); ("w", "100")] in
  NoDup (args1.*1)
  /\ args1 ≡ₚ args2
  /\ identity "cat.jpg" args1 = identity "cat.jpg" args2.
Proof.
  intros args1 args2.
  assert (H1 : NoDup (args1.*1)) by (apply (bool_decide_unpack _); vm_compute; exact I).
  assert (H2 : args1 ≡ₚ args2) by apply perm_swap.
  exact (conj H1 (conj H2
    (proj1 (C1_identity_order_invariant "cat.jpg" args1 args2 H1 H2)))).
Defined.

Lemma C2_witness :
  let args := [("format", "square")] in
  let run := image "/srv" toy_identify toy_jpeg toy_fits in
  let later := [("a.png", [("h", "50")]); ("a.png", []); ("b.png", [("w", "1")])] in
  let r := Resp (xff :: xd8 :: toy_file 100 100) mime in
  let w1 := (run "a.png" args toy_world).2 in
  let w2 := serve_all "/srv" toy_identify toy_jpeg toy_fits later w1 in
  files toy_world !! target_path "/srv" "a.png" args = None
  /\ run "a.png" args toy_world = (Ok r, w1)
  /\ files w2 !! target_path "/srv" "a.png" args = Some (body r)
  /\ exists evs, run "a.png" args w2 = (Ok r, after w2 evs)
                 /\ List.filter is_pipeline_event evs = [].
Proof.
  intros args run later r w1 w2.
  assert (H1 : args <> []) by discriminate.
  assert (H2 : files toy_world !! target_path "/srv" "a.png" args = None)
    by (vm_compute; reflexivity).
  assert (H3 : run "a.png" args toy_world = (Ok r, w1))
    by (vm_compute; reflexivity).
  destruct (C2_artifact_written_once_then_reused "/srv" toy_identify toy_jpeg toy_fits
              "a.png" args toy_world w1 r later H1 H2 H3)
    as (_ & _ & _ & H4 & H5 & _).
  exact (conj H2 (conj H3 (conj H4 H5))).
Defined.

Lemma C3_witness :
  Py.contains ".." "a.png" = false
  /\ files toy_world !! "/srv/images/a.png" = Some (toy_file 300 100)
  /\ image "/srv" toy_identify toy_jpeg toy_fits "a.png" [] toy_world =
       (Ok (Resp (toy_file 300 100) mime),
        after toy_world [ev_isfile "/srv/images/a.png";
                         ev_send_file "/srv/images/a.png"]).
Proof.
  assert (H1 : Py.contains ".." "a.png" = false) by reflexivity.
  assert (H2 : files toy_world !! "/srv/images/a.png" = Some (toy_file 300 100))
    by (vm_compute; reflexivity).
  exact (conj H1 (conj H2
    (proj1 (C3_no_params_serves_source "/srv" toy_identify toy_jpeg toy_fits
              "a.png" toy_world (toy_file 300 100) H1 H2)))).
Defined.

Lemma C4_witness :
  let source := PIL.decoded [] 200 100 in
  exists out,
    resize_stage toy_fits [("h", "50")] source = Ok out /\ PIL.size out = (100, 50).
Proof.
  intros source.
  assert (HW : 0 < (PIL.size source).1 <= PIL.INT_MAX)
    by (split; [reflexivity|discriminate]).
  assert (HH : 0 < (PIL.size source).2 <= PIL.INT_MAX)
    by (split; [reflexivity|discriminate]).
  destruct (C4_resize_one_side_truncates toy_fits [("h", "50")] source HW HH)
    as [Hheight _].
  assert (Hexact : Z.abs (50 * (PIL.size source).1) < 2 ^ 53) by reflexivity.
  destruct (Hheight "50" 50 eq_refl eq_refl eq_refl Hexact) as (_ & Hout & _).
  apply Hout; [split; discriminate|split; discriminate|reflexivity].
Defined.

(** C4, as the specification words it, fails: for a 400x300 image and
    [h=50] the resize block gives the width 66, where
    [round(50 * 400 / 300)] is 67. *)
Lemma C4_round_counterexample :
  let source := PIL.decoded [] 400 300 in
  exists out,
    resize_stage toy_fits [("h", "50")] source = Ok out
    /\ PIL.size out = (66, 50)
    /\ spec_width_for_height 50 (PIL.size source) = Ok 67
    /\ Ok (PIL.size out).1 <> spec_width_for_height 50 (PIL.size source).
Proof.
  exists (PIL.resized (PIL.decoded [] 400 300) 66 50).
  repeat split; try reflexivity. discriminate.
Qed.





Lemma C9_witness :
  Py.contains ".." "../../etc/passwd" = true
  /\ image "/srv" toy_identify toy_jpeg toy_fits "../../etc/passwd" [("w", "100")]
       toy_world = (Raise AssertionError, toy_world).
Proof.
  assert (H1 : Py.contains ".." "../../etc/passwd" = true) by reflexivity.
  exact (conj H1
    (proj1 (C9_traversal_refused_before_access "/srv" toy_identify toy_jpeg toy_fits
              "../../etc/passwd" [("w", "100")] toy_world H1))).
Defined.

Lemma C10_witness :
  let args := [("quality", "best")] in
  let source := PIL.decoded (toy_file 300 100) 300 100 in
  let out := xff :: xd8 :: toy_file 300 100 in
  files toy_world !! target_path "/srv" "a.png" args = None
  /\ transform toy_fits args source = Ok source
  /\ (image "/srv" toy_identify toy_jpeg toy_fits "a.png" args toy_world).1
       = Ok (Resp out mime)
  /\ out <> toy_file 300 100.
Proof.
  intros args source out.
  assert (H0 : files toy_world !! target_path "/srv" "a.png" args = None)
    by (vm_compute; reflexivity).
  assert (H1 : args <> []) by discriminate.
  assert (H2 : forall k, k ∈ ["w"; "h"; "format"; "rot"; "flip"] ->
                         MultiDict.get args k = None).
  { intros k Hk. rewrite !elem_of_cons, elem_of_nil in Hk.
    destruct Hk as [->|[->|[->|[->|[->|[]]]]]]; reflexivity. }
  assert (H3 : Py.contains ".." "a.png" = false) by reflexivity.
  assert (H4 : files toy_world !! os_path.join (images_path "/srv") "a.png"
               = Some (toy_file 300 100)) by (vm_compute; reflexivity).
  assert (H5 : toy_identify (toy_file 300 100) = Some (300, 100))
    by reflexivity.
  assert (H6 : toy_jpeg source = Some out) by reflexivity.
  destruct (C10_unknown_params_are_reencoded "/srv" toy_identify toy_jpeg toy_fits
              "a.png" args toy_world (toy_file 300 100) 300 100 out
              H1 H2 H3 H4 H5 H6) as [Htr _].
  split; [exact H0|]. split; [exact Htr|].
  split; [vm_compute; reflexivity|discriminate].
Defined.


(** * The further properties at work *)

Lemma X1_witness :
  let path := "/srv/images/gone.png" in
  Py.contains ".." "gone.png" = false
  /\ files toy_world !! path = None
  /\ image "/srv" toy_identify toy_jpeg toy_fits "gone.png" [("w", "10")] toy_world
     = (Raise (OSError path), after toy_world [ev_isfile path]).
Proof.
  intros path.
  assert (H1 : Py.contains ".." "gone.png" = false) by reflexivity.
  assert (H2 : files toy_world !! os_path.join (images_path "/srv") "gone.png"
               = None) by (vm_compute; reflexivity).
  destruct (X1_missing_source_fails_first "/srv" toy_identify toy_jpeg toy_fits
              "gone.png" [("w", "10")] toy_world H1 H2) as [H _].
  exact (conj H1 (conj H2 H)).
Defined.

Lemma X2_witness :
  let args := [("w", "10")] in
  let path := "/srv/images/notes.png" in
  files toy_world_text !! path = Some [x68; x69]
  /\ toy_identify [x68; x69] = None
  /\ files toy_world_text !! target_path "/srv" "notes.png" args = None
  /\ (image "/srv" toy_identify toy_jpeg toy_fits "notes.png" args toy_world_text).1
     = Raise (UnidentifiedImageError path).
Proof.
  intros args path.
  assert (H1 : Py.contains ".." "notes.png" = false) by reflexivity.
  assert (H2 : args <> []) by discriminate.
  assert (H3 : files toy_world_text
                 !! os_path.join (images_path "/srv") "notes.png"
               = Some [x68; x69]) by (vm_compute; reflexivity).
  assert (H4 : files toy_world_text !! target_path "/srv" "notes.png" args
               = None) by (vm_compute; reflexivity).
  assert (H5 : toy_identify [x68; x69] = None) by reflexivity.
  destruct (X2_undecodable_source_fails "/srv" toy_identify toy_jpeg toy_fits
              "notes.png" args toy_world_text [x68; x69] H1 H2 H3 H4 H5)
    as [H _].
  split; [exact H3|]. split; [exact H5|]. split; [exact H4|].
  apply (f_equal fst) in H. exact H.
Defined.

Lemma X4_witness :
  let args := [("w", "40"); ("h", "30"); ("format", "square");
               ("rot", "45"); ("flip", "hv")] in
  match transform toy_fits args (PIL.decoded [] 300 100) with
  | Ok out => positive_size (PIL.size out)
  | Raise _ => False
  end.
Proof.
  intros args.
  assert (Hpos : positive_size (PIL.size (PIL.decoded [] 300 100)))
    by (split; reflexivity).
  destruct (transform toy_fits args (PIL.decoded [] 300 100)) as [out|e] eqn:Hout.
  - exact (X4_output_has_positive_sides toy_fits args (PIL.decoded [] 300 100) out
             Hpos Hout).
  - vm_compute in Hout. discriminate Hout.
Defined.

Lemma X5_witness :
  let args := [("w", "40"); ("h", "30"); ("format", "square");
               ("rot", "45"); ("flip", "hv")] in
  match transform toy_fits args (PIL.decoded [] 300 100) with
  | Ok out => PIL.size out = (30, 30)
  | Raise _ => False
  end.
Proof.
  intros args.
  assert (Hpos : positive_size (PIL.size (PIL.decoded [] 300 100)))
    by (split; reflexivity).
  destruct (transform toy_fits args (PIL.decoded [] 300 100)) as [out|e] eqn:Hout.
  - destruct (X5_size_after_the_pipeline toy_fits args (PIL.decoded [] 300 100) out
                Hpos Hout) as (mid & Hmid & Hsize).
    vm_compute in Hmid. injection Hmid as <-. exact Hsize.
  - vm_compute in Hout. discriminate Hout.
Defined.

Lemma X6_witness :
  let args := [("w", "40"); ("h", "30"); ("flip", "v")] in
  match transform toy_fits args (PIL.decoded [] 300 100) with
  | Ok out => PIL.size out = (40, 30)
  | Raise _ => False
  end.
Proof.
  intros args.
  assert (Hpos : positive_size (PIL.size (PIL.decoded [] 300 100)))
    by (split; reflexivity).
  destruct (transform toy_fits args (PIL.decoded [] 300 100)) as [out|e] eqn:Hout.
  - exact (X6_both_sides_give_the_exact_size toy_fits args (PIL.decoded [] 300 100)
             out "30" "40" 30 40 Hpos eq_refl eq_refl eq_refl eq_refl Hout).
  - vm_compute in Hout. discriminate Hout.
Defined.

Lemma X7_witness :
  resize_stage toy_fits [("h", "1")] (PIL.decoded [] 100 200)
  = Raise (ValueError size_not_positive).
Proof.
  assert (Hpos : positive_size (PIL.size (PIL.decoded [] 100 200)))
    by (split; reflexivity).
  destruct (X7_thin_result_is_refused toy_fits [("h", "1")]
              (PIL.decoded [] 100 200) Hpos) as [Hheight _].
  apply (Hheight "1" 1 eq_refl eq_refl eq_refl eq_refl).
  - split; discriminate.
  - discriminate.
Defined.

Lemma X12_witness :
  allowed_file "..PNG" = true
  /\ werkzeug.secure_filename "..PNG" = "PNG"
  /\ exists stem extension head,
       "..PNG" = stem +:+ "." +:+ extension
       /\ Py.contains "." extension = false
       /\ extension <> ""
       /\ werkzeug.secure_filename "..PNG" = head +:+ extension.
Proof.
  assert (H : allowed_file "..PNG" = true) by (vm_compute; reflexivity).
  split; [exact H|]. split; [reflexivity|].
  exact (X12_stored_name_ends_with_the_extension "..PNG" H).
Defined.

Lemma X13_witness :
  let args := [("format", "square")] in
  let w := (image "/srv" toy_identify toy_jpeg toy_fits "a.png" args toy_world).2 in
  let artifact := xff :: xd8 :: toy_file 100 100 in
  let requests :=
    [to_images POST (Some ("a.png", toy_file 50 50));
     to_image "a.png" args; to_hello; to_image "a.png" [("h", "50")]] in
  files w !! target_path "/srv" "a.png" args = Some artifact
  /\ files (handle_all "/srv" toy_identify toy_jpeg toy_fits toy_render toy_walk
              requests w) !! target_path "/srv" "a.png" args = Some artifact.
Proof.
  intros args w artifact requests.
  assert (H : files w !! target_path "/srv" "a.png" args = Some artifact)
    by (vm_compute; reflexivity).
  split; [exact H|].
  apply (X13_artifacts_outlive_every_request "/srv" toy_identify toy_jpeg toy_fits
           toy_render toy_walk requests w "a.png" args artifact H).
Defined.

Lemma X14_witness :
  let key := werkzeug.secure_filename "My Photo.PNG" in
  let uploaded :=
    (images "/srv" toy_render toy_walk POST
       (Some ("My Photo.PNG", toy_file 10 10)) toy_world).2 in
  let w' := serve_all "/srv" toy_identify toy_jpeg toy_fits
              [("a.png", [("w", "10")])] uploaded in
  key = "My_Photo.PNG"
  /\ allowed_file "My Photo.PNG" = true
  /\ (image "/srv" toy_identify toy_jpeg toy_fits key [] w').1
     = Ok (Resp (toy_file 10 10) mime).
Proof.
  intros key uploaded w'.
  assert (H1 : allowed_file "My Photo.PNG" = true) by (vm_compute; reflexivity).
  assert (H2 : Py.contains ".." key = false) by reflexivity.
  split; [reflexivity|]. split; [exact H1|].
  apply (X14_upload_then_view_round_trip "/srv" toy_identify toy_jpeg toy_fits
           toy_render toy_walk "My Photo.PNG" (toy_file 10 10) toy_world
           [("a.png", [("w", "10")])] H1 H2).
Defined.

Lemma X15_witness :
  let key := werkzeug.secure_filename "a..png" in
  let uploaded :=
    (images "/srv" toy_render toy_walk POST
       (Some ("a..png", toy_file 10 10)) toy_world).2 in
  key = "a..png"
  /\ allowed_file "a..png" = true
  /\ files uploaded !! (images_path "/srv" +:+ "/" +:+ key)
     = Some (toy_file 10 10)
  /\ image "/srv" toy_identify toy_jpeg toy_fits key [] uploaded
     = (Raise AssertionError, uploaded).
Proof.
  intros key uploaded.
  assert (H1 : allowed_file "a..png" = true) by (vm_compute; reflexivity).
  assert (H2 : Py.contains ".." key = true) by reflexivity.
  destruct (X15_stored_names_with_two_dots_are_never_served "/srv"
              toy_identify toy_jpeg toy_fits toy_render toy_walk "a..png"
              (toy_file 10 10) toy_world H1 H2) as [Hstored Hnever].
  split; [reflexivity|]. split; [exact H1|]. split; [exact Hstored|].
  apply Hnever.
Defined.

Lemma X16_witness :
  let args := [("format", "square")] in
  let w := (image "/srv" toy_identify toy_jpeg toy_fits "a.png" args toy_world).2 in
  let old := xff :: xd8 :: toy_file 100 100 in
  let key := werkzeug.secure_filename "a.png" in
  let uploaded :=
    (images "/srv" toy_render toy_walk POST
       (Some ("a.png", toy_file 50 80)) w).2 in
  files w !! target_path "/srv" key args = Some old
  /\ (image "/srv" toy_identify toy_jpeg toy_fits key [] uploaded).1
     = Ok (Resp (toy_file 50 80) mime)
  /\ (image "/srv" toy_identify toy_jpeg toy_fits key args uploaded).1
     = Ok (Resp old mime).
Proof.
  intros args w old key uploaded.
  assert (H1 : allowed_file "a.png" = true) by (vm_compute; reflexivity).
  assert (H2 : Py.contains ".." key = false) by reflexivity.
  assert (H3 : args <> []) by discriminate.
  assert (H4 : files w !! target_path "/srv" key args = Some old)
    by (vm_compute; reflexivity).
  split; [exact H4|].
  apply (X16_replaced_source_keeps_its_old_artifacts "/srv" toy_identify
           toy_jpeg toy_fits toy_render toy_walk "a.png" (toy_file 50 80) old args w
           H1 H2 H3 H4).
Defined.

Lemma X17_witness :
  let run := image "/srv" toy_identify toy_jpeg toy_fits in
  (run "a.png" [("h", "50")]
     (run "a.png" [("format", "square")] toy_world).2).1
  = (run "a.png" [("h", "50")] toy_world).1.
Proof.
  intros run.
  apply (X17_views_with_other_keys_do_not_interfere "/srv" toy_identify
           toy_jpeg toy_fits "a.png" "a.png" [("format", "square")] [("h", "50")]
           toy_world).
  - intros H. vm_compute in H. discriminate H.
  - intros H. vm_compute in H. discriminate H.
Defined.


Lemma X18_witness :
  let args := [("w", "2147483648"); ("h", "1"); ("rot", "abc")] in
  let path := "/srv/images/a.png" in
  let target := target_path "/srv" "a.png" args in
  requested_size args (300, 100) (2147483648, 1)
  /\ image "/srv" toy_identify toy_jpeg toy_fits "a.png" args toy_world =
       (Raise OverflowError,
        after toy_world [ev_isfile path; ev_isfile target; ev_image_open path]).
Proof.
  intros args path target.
  assert (H1 : Py.contains ".." "a.png" = false) by reflexivity.
  assert (H2 : files toy_world !! os_path.join (images_path "/srv") "a.png"
               = Some (toy_file 300 100)) by (vm_compute; reflexivity).
  assert (H3 : files toy_world !! target_path "/srv" "a.png" args = None)
    by (vm_compute; reflexivity).
  assert (H4 : toy_identify (toy_file 300 100) = Some (300, 100))
    by reflexivity.
  assert (H5 : requested_size args (300, 100) (2147483648, 1)).
  { apply (both_sides args (300, 100) "1" "2147483648" 1 2147483648);
      reflexivity. }
  assert (HW : 0 < 300 <= PIL.INT_MAX) by (split; [reflexivity|discriminate]).
  assert (HH : 0 < 100 <= PIL.INT_MAX) by (split; [reflexivity|discriminate]).
  split; [exact H5|].
  apply (X18_oversized_target_overflows "/srv" toy_identify toy_jpeg toy_fits
           "a.png" args toy_world (toy_file 300 100) 300 100 2147483648 1
           H1 H2 H3 H4 HW HH H5).
  reflexivity.
Defined.


(** The order of the failures on two requests: a width beyond the C
    [int]s stops the first at the resize, before its [rot] is read; the
    second has a [rot] of 4301 digits, which [int()] refuses. *)
Lemma failures_in_the_order_of_the_source :
  let source := PIL.decoded [] 300 100 in
  let long := String.concat "" (repeat "9" 4301) in
  transform toy_fits [("w", "2147483648"); ("h", "1"); ("rot", "abc")] source
  = Raise OverflowError
  /\ transform toy_fits [("rot", long)] source
     = Raise (ValueError (too_many_digits long))
  /\ unparsable (Some long) = true.
Proof. repeat split; vm_compute; reflexivity. Qed.
